(** * CoffeeOrderBuilder: a shallow embedding of [main.py]

    The Python module defines a frozen dataclass [CoffeeOrder] and a mutable
    [CoffeeOrderBuilder] whose methods validate their argument, mutate the
    builder and return it for chaining.  Python [float] is IEEE-754 binary64,
    which is what Rocq's primitive [float] computes with; dictionaries and
    sets are stdpp's [gmap] and [gset]; the builder itself is a record that
    every method receives and hands back next to its outcome, so that a
    raised exception still leaves a builder behind, as in Python.  Module
    [Obj] holds the same methods over a store of objects and references,
    for what depends on which object an order and a builder share. *)

From Stdlib Require Import ZArith Uint63 Floats.
From stdpp Require Import base decidable option list gmap strings pretty.

Set Warnings "-inexact-float,-clear-no-such-hyp".

(** ** Exceptions and the method monad *)

(** Every check of the builder raises [ValueError]; a dictionary subscript
    with an absent key raises [KeyError]. *)
Inductive exn : Type :=
  | ValueError (msg : string)
  | KeyError (key : string).

Inductive outcome (A : Type) : Type :=
  | Return (a : A)
  | Raise (e : exn).
Arguments Return {A} a.
Arguments Raise {A} e.

(** ** The data model *)

(** [CoffeeOrder], main.py lines 5-14 ([Tuple[str, ...]] is an immutable
    sequence of immutable strings, held here by value). *)
Record CoffeeOrder : Type := mkOrder {
  base : string;
  size : string;
  milk : string;
  syrups : list string;
  sugar : Z;
  iced : bool;
  price : float;
  description : string
}.

(** The attributes of a [CoffeeOrderBuilder] instance, lines 65-68 and
    106-110. *)
Record CoffeeOrderBuilder : Type := mkBuilder {
  _base : option string;
  _size : option string;
  _milk : string;
  _syrups : list string;
  _sugar : Z;
  _iced : bool
}.

(** A method body: it runs on the receiver and yields an outcome together
    with the receiver as the body left it. *)
Definition M (A : Type) : Type := CoffeeOrderBuilder → outcome A * CoffeeOrderBuilder.

Definition ret {A} (a : A) : M A := λ self, (Return a, self).
Definition raise {A} (e : exn) : M A := λ self, (Raise e, self).
Definition bind {A B} (m : M A) (k : A → M B) : M B := λ self,
  match m self with
  | (Return a, self') => k a self'
  | (Raise e, self') => (Raise e, self')
  end.
Definition get : M CoffeeOrderBuilder := λ self, (Return self, self).

(** stdpp's notations [x ← m; k] and [m;; k] are the sequencing of
    statements. *)
#[global] Instance M_ret : MRet M := @ret.
#[global] Instance M_bind : MBind M := λ A B k m, bind m k.

(** [when c e]: the statement [if c: raise e]. *)
Definition when (c : bool) (e : exn) : M unit :=
  if c then raise e else ret tt.

(** Attribute assignments [self._x = v]. *)
Definition set__base (v : option string) : M unit := λ self,
  (Return tt, mkBuilder v (_size self) (_milk self) (_syrups self) (_sugar self) (_iced self)).
Definition set__size (v : option string) : M unit := λ self,
  (Return tt, mkBuilder (_base self) v (_milk self) (_syrups self) (_sugar self) (_iced self)).
Definition set__milk (v : string) : M unit := λ self,
  (Return tt, mkBuilder (_base self) (_size self) v (_syrups self) (_sugar self) (_iced self)).
Definition set__syrups (v : list string) : M unit := λ self,
  (Return tt, mkBuilder (_base self) (_size self) (_milk self) v (_sugar self) (_iced self)).
Definition set__sugar (v : Z) : M unit := λ self,
  (Return tt, mkBuilder (_base self) (_size self) (_milk self) (_syrups self) v (_iced self)).
Definition set__iced (v : bool) : M unit := λ self,
  (Return tt, mkBuilder (_base self) (_size self) (_milk self) (_syrups self) (_sugar self) v).

(** ** Class constants, lines 35-63 *)

Definition BASE_PRICES : gmap string float :=
  {[ "espresso" := 200.0%float; "americano" := 250.0%float;
     "latte" := 300.0%float; "cappuccino" := 320.0%float ]}.

Definition SIZE_MULTIPLIERS : gmap string float :=
  {[ "small" := 1.0%float; "medium" := 1.2%float; "large" := 1.4%float ]}.

Definition MILK_PRICES : gmap string float :=
  {[ "none" := 0.0%float; "whole" := 30.0%float; "skim" := 30.0%float;
     "oat" := 60.0%float; "soy" := 50.0%float ]}.

Definition SYRUP_PRICE : float := 40.0%float.
Definition ICED_PRICE : float := 0.2%float.
Definition MAX_SUGAR : Z := 5.
Definition MAX_SYRUPS : nat := 4.

Definition VALID_BASES : gset string :=
  {[ "espresso"; "americano"; "latte"; "cappuccino" ]}.
Definition VALID_SIZES : gset string := {[ "small"; "medium"; "large" ]}.
Definition VALID_MILKS : gset string :=
  {[ "none"; "whole"; "skim"; "oat"; "soy" ]}.

(** ** String helpers *)

(** [sep.join(parts)]. *)
Fixpoint join (sep : string) (parts : list string) : string :=
  match parts with
  | [] => ""
  | [p] => p
  | p :: rest => p +:+ sep +:+ join sep rest
  end.

(** The text Python prints for a set of strings; the order of the elements
    is that of [elements], Python leaves it unspecified. *)
Definition repr_set (s : gset string) : string :=
  "{" +:+ join ", " ((λ x, "'" +:+ x +:+ "'") <$> elements s) +:+ "}".

(** [str(n)] for an [int]. *)
Definition str_int (n : Z) : string := pretty n.

(** [float(n)] for a length; exact below 2^53. *)
Definition float_of_len (n : nat) : float :=
  PrimFloat.of_uint63 (Uint63.of_Z (Z.of_nat n)).

(** [d[k]]: a subscript raises [KeyError] on an absent key. *)
Definition subscript {V} (d : gmap string V) (k : string) : M V :=
  match d !! k with
  | Some v => ret v
  | None => raise (KeyError k)
  end.

(** ** The methods of [CoffeeOrderBuilder] *)

(** Lines 70-74.  Line 71 is indented with a tab before its four spaces;
    the statements of lines 70-74 admit one nesting only, that of
    [set_size] and [set_milk], and it is the one taken here. *)
Definition set_base (base : string) : M unit :=
  when (bool_decide (base ∉ VALID_BASES))
    (ValueError ("Invalid base: " +:+ base +:+ ". Must be one of " +:+ repr_set VALID_BASES));;
  set__base (Some base).

(** Lines 76-80. *)
Definition set_size (size : string) : M unit :=
  when (bool_decide (size ∉ VALID_SIZES))
    (ValueError ("invalid size: " +:+ size +:+ ". must be one of " +:+ repr_set VALID_SIZES));;
  set__size (Some size).

(** Lines 82-86. *)
Definition set_milk (milk : string) : M unit :=
  when (bool_decide (milk ∉ VALID_MILKS))
    (ValueError ("invalid milk type: " +:+ milk +:+ ". must be one of " +:+ repr_set VALID_MILKS));;
  set__milk milk.

(** Lines 88-94: the capacity test comes first, the membership test
    second. *)
Definition add_syrup (name : string) : M unit :=
  self ← get;
  when (MAX_SYRUPS <=? length (_syrups self))%nat
    (ValueError ("cannot add more than " +:+ pretty MAX_SYRUPS +:+ " syrups"));;
  if bool_decide (name ∉ _syrups self)
  then set__syrups (_syrups self ++ [name])
  else ret tt.

(** Lines 96-100. *)
Definition set_sugar (teaspoons : Z) : M unit :=
  when (negb ((0 <=? teaspoons)%Z && (teaspoons <=? MAX_SUGAR)%Z))
    (ValueError ("sugar quantity must be between 0 and " +:+ str_int MAX_SUGAR));;
  set__sugar teaspoons.

(** Lines 102-104. *)
Definition set_iced (iced : bool) : M unit :=
  set__iced iced.

(** Lines 106-111. *)
Definition clear_extras : M unit :=
  set__milk "none";;
  set__syrups [];;
  set__sugar 0;;
  set__iced false.

(** Lines 113-126. *)
Definition _calculate_price : M float :=
  self ← get;
  match _base self, _size self with
  | Some b, Some s =>
      base_price ← subscript BASE_PRICES b;
      size_multiplier ← subscript SIZE_MULTIPLIERS s;
      let price := (base_price * size_multiplier)%float in
      milk_price ← subscript MILK_PRICES (_milk self);
      let price := (price + milk_price)%float in
      let price := (price + float_of_len (length (_syrups self)) * SYRUP_PRICE)%float in
      let price := if _iced self then (price + ICED_PRICE)%float else price in
      ret price
  | _, _ => raise (ValueError "base and size must be set before calculating price")
  end.

(** Lines 128-146. *)
Definition _build_description : M string :=
  self ← get;
  match _base self, _size self with
  | Some b, Some s =>
      let parts := [s +:+ " " +:+ b] in
      let parts :=
        if bool_decide (_milk self ≠ "none")
        then parts ++ ["with " +:+ _milk self +:+ " milk"] else parts in
      let parts :=
        match _syrups self with
        | [] => parts
        | _ => let syrup_list := join "+" (_syrups self) in
               parts ++ ["+" +:+ syrup_list]
        end in
      let parts := if _iced self then parts ++ ["(iced)"] else parts in
      let parts :=
        if (0 <? _sugar self)%Z
        then parts ++ [str_int (_sugar self) +:+ " tsp sugar"] else parts in
      ret (join " " parts)
  | _, _ => ret ""
  end.

(** Lines 148-171. *)
Definition build : M CoffeeOrder :=
  self ← get;
  match _base self with
  | None => raise (ValueError "base is required")
  | Some b =>
  match _size self with
  | None => raise (ValueError "size is required")
  | Some s =>
      when (MAX_SYRUPS <? length (_syrups self))%nat
        (ValueError ("cannot have more than " +:+ pretty MAX_SYRUPS +:+ " syrups"));;
      when (negb ((0 <=? _sugar self)%Z && (_sugar self <=? MAX_SUGAR)%Z))
        (ValueError ("sugar quantity must be between 0 and " +:+ str_int MAX_SUGAR));;
      price ← _calculate_price;
      description ← _build_description;
      self ← get;
      ret (mkOrder b s (_milk self) (_syrups self) (_sugar self) (_iced self)
             price description)
  end
  end.

(** [CoffeeOrderBuilder()], lines 65-68: [clear_extras] on the new object,
    then the two mandatory fields are set to [None]. *)
Definition blank : CoffeeOrderBuilder := mkBuilder None None "" [] 0 false.
Definition __init__ : M unit :=
  clear_extras;;
  set__base None;;
  set__size None.
Definition new_builder : CoffeeOrderBuilder := snd (__init__ blank).

(** ** The caller's side *)

(** One call on a builder.  The setters return the builder itself, [build]
    returns a new order. *)
Inductive call : Type :=
  | Set_base (base : string)
  | Set_size (size : string)
  | Set_milk (milk : string)
  | Add_syrup (name : string)
  | Set_sugar (teaspoons : Z)
  | Set_iced (iced : bool)
  | Clear_extras
  | Build.

Definition perform (c : call) : M (option CoffeeOrder) :=
  match c with
  | Set_base v => set_base v;; mret None
  | Set_size v => set_size v;; mret None
  | Set_milk v => set_milk v;; mret None
  | Add_syrup v => add_syrup v;; mret None
  | Set_sugar v => set_sugar v;; mret None
  | Set_iced v => set_iced v;; mret None
  | Clear_extras => clear_extras;; mret None
  | Build => order ← build; mret (Some order)
  end.

(** The builders a caller can hold: a new one, and whatever a call leaves
    behind, whether it returned or raised (the caller may catch the
    exception and go on). *)
Inductive reachable : CoffeeOrderBuilder → Prop :=
  | reachable_new : reachable new_builder
  | reachable_call c self : reachable self → reachable (snd (perform c self)).

(** The builder left by a sequence of calls. *)
Definition after (cs : list call) (self : CoffeeOrderBuilder) : CoffeeOrderBuilder :=
  foldl (λ self c, snd (perform c self)) self cs.

(** ** Objects and references *)

(** The same module once more, with the objects of a run in a store and
    reached through references, so that what an order shares with the
    builder, and what may be assigned to, is part of the model and not a
    convention: a tuple of strings, an instance of [CoffeeOrder] and an
    instance of [CoffeeOrderBuilder] are objects; [_syrups] of a builder and
    [syrups] of an order hold a reference to a tuple.  Strings, integers,
    booleans and floats have no operation that updates them and are held by
    value. *)
Module Obj.

Definition loc : Type := nat.

(** Lines 5-14. *)
Record CoffeeOrder : Type := mkOrder {
  base : string;
  size : string;
  milk : string;
  syrups : loc;
  sugar : Z;
  iced : bool;
  price : float;
  description : string
}.

(** Lines 65-68 and 106-110. *)
Record CoffeeOrderBuilder : Type := mkBuilder {
  _base : option string;
  _size : option string;
  _milk : string;
  _syrups : loc;
  _sugar : Z;
  _iced : bool
}.

Inductive object : Type :=
  | Tuple (items : list string)
  | Order (order : CoffeeOrder)
  | Builder (builder : CoffeeOrderBuilder).

(** The store: the object of reference [r] is the [r]-th element. *)
Definition heap : Type := list object.

(** Next to the exceptions the methods raise themselves, an assignment to
    an attribute of a frozen dataclass raises [FrozenInstanceError], and the
    use of an object as what it is not raises [AttributeError]. *)
Inductive error : Type :=
  | Exn (e : exn)
  | FrozenInstanceError (msg : string)
  | AttributeError (msg : string).

Inductive outcome (A : Type) : Type :=
  | Return (a : A)
  | Raise (e : error).
Arguments Return {A} a.
Arguments Raise {A} e.

(** A computation runs on the store and hands it back with its outcome. *)
Definition M (A : Type) : Type := heap → outcome A * heap.

Definition ret {A} (a : A) : M A := λ h, (Return a, h).
Definition raise {A} (e : error) : M A := λ h, (Raise e, h).
Definition bind {A B} (m : M A) (k : A → M B) : M B := λ h,
  match m h with
  | (Return a, h') => k a h'
  | (Raise e, h') => (Raise e, h')
  end.

#[export] Instance M_ret : MRet M := @ret.
#[export] Instance M_bind : MBind M := λ A B k m, bind m k.

(** A new object: its reference is one no object has yet. *)
Definition alloc (o : object) : M loc := λ h : list object,
  (Return (length h), h ++ [o]).

(** Reading the attributes of the builder [self]. *)
Definition load_builder (self : loc) : M CoffeeOrderBuilder := λ h : list object,
  match h !! self with
  | Some (Builder b) => (Return b, h)
  | _ => (Raise (AttributeError "not a CoffeeOrderBuilder"), h)
  end.

(** Reading the items of the tuple [r]. *)
Definition load_tuple (r : loc) : M (list string) := λ h : list object,
  match h !! r with
  | Some (Tuple items) => (Return items, h)
  | _ => (Raise (AttributeError "not a tuple"), h)
  end.

(** The assignment [target.name = value]: a builder is an ordinary object
    and takes the value ([store] puts it in its place); [CoffeeOrder] is
    declared [@dataclass(frozen=True)] (line 5), whose [__setattr__] raises
    [FrozenInstanceError] whatever the name and the value; a tuple has no
    attribute to assign. *)
Definition setattr (target : loc) (name : string)
    (store : CoffeeOrderBuilder → CoffeeOrderBuilder) : M unit := λ h : list object,
  match h !! target with
  | Some (Builder b) => (Return tt, <[target := Builder (store b)]> h)
  | Some (Order _) =>
      (Raise (FrozenInstanceError ("cannot assign to field '" +:+ name +:+ "'")), h)
  | _ => (Raise (AttributeError ("no attribute '" +:+ name +:+ "'")), h)
  end.

Definition when (c : bool) (e : exn) : M unit :=
  if c then raise (Exn e) else ret tt.

Definition subscript {V} (d : gmap string V) (k : string) : M V :=
  match d !! k with
  | Some v => ret v
  | None => raise (Exn (KeyError k))
  end.

(** The assignments [self._x = v] of the methods. *)
Definition set__base (self : loc) (v : option string) : M unit :=
  setattr self "_base"
    (λ b, mkBuilder v (_size b) (_milk b) (_syrups b) (_sugar b) (_iced b)).
Definition set__size (self : loc) (v : option string) : M unit :=
  setattr self "_size"
    (λ b, mkBuilder (_base b) v (_milk b) (_syrups b) (_sugar b) (_iced b)).
Definition set__milk (self : loc) (v : string) : M unit :=
  setattr self "_milk"
    (λ b, mkBuilder (_base b) (_size b) v (_syrups b) (_sugar b) (_iced b)).
Definition set__syrups (self : loc) (v : loc) : M unit :=
  setattr self "_syrups"
    (λ b, mkBuilder (_base b) (_size b) (_milk b) v (_sugar b) (_iced b)).
Definition set__sugar (self : loc) (v : Z) : M unit :=
  setattr self "_sugar"
    (λ b, mkBuilder (_base b) (_size b) (_milk b) (_syrups b) v (_iced b)).
Definition set__iced (self : loc) (v : bool) : M unit :=
  setattr self "_iced"
    (λ b, mkBuilder (_base b) (_size b) (_milk b) (_syrups b) (_sugar b) v).

(** Lines 70-74. *)
Definition set_base (self : loc) (base : string) : M unit :=
  when (bool_decide (base ∉ VALID_BASES))
    (ValueError ("Invalid base: " +:+ base +:+ ". Must be one of " +:+ repr_set VALID_BASES));;
  set__base self (Some base).

(** Lines 76-80. *)
Definition set_size (self : loc) (size : string) : M unit :=
  when (bool_decide (size ∉ VALID_SIZES))
    (ValueError ("invalid size: " +:+ size +:+ ". must be one of " +:+ repr_set VALID_SIZES));;
  set__size self (Some size).

(** Lines 82-86. *)
Definition set_milk (self : loc) (milk : string) : M unit :=
  when (bool_decide (milk ∉ VALID_MILKS))
    (ValueError ("invalid milk type: " +:+ milk +:+ ". must be one of " +:+ repr_set VALID_MILKS));;
  set__milk self milk.

(** Lines 88-94.  [self._syrups + (name,)] makes a new tuple, to which line
    93 then binds [_syrups]; the tuple that was there is not written. *)
Definition add_syrup (self : loc) (name : string) : M unit :=
  b ← load_builder self;
  items ← load_tuple (_syrups b);
  when (MAX_SYRUPS <=? length items)%nat
    (ValueError ("cannot add more than " +:+ pretty MAX_SYRUPS +:+ " syrups"));;
  if bool_decide (name ∉ items)
  then r ← alloc (Tuple (items ++ [name])); set__syrups self r
  else ret tt.

(** Lines 96-100. *)
Definition set_sugar (self : loc) (teaspoons : Z) : M unit :=
  when (negb ((0 <=? teaspoons)%Z && (teaspoons <=? MAX_SUGAR)%Z))
    (ValueError ("sugar quantity must be between 0 and " +:+ str_int MAX_SUGAR));;
  set__sugar self teaspoons.

(** Lines 102-104. *)
Definition set_iced (self : loc) (iced : bool) : M unit :=
  set__iced self iced.

(** Lines 106-111.  [()] is taken as a tuple of its own; whether Python
    hands out one empty tuple for all shows only under [is]. *)
Definition clear_extras (self : loc) : M unit :=
  set__milk self "none";;
  r ← alloc (Tuple []);
  set__syrups self r;;
  set__sugar self 0;;
  set__iced self false.

(** Lines 113-126. *)
Definition _calculate_price (self : loc) : M float :=
  b ← load_builder self;
  match _base b, _size b with
  | Some bs, Some sz =>
      base_price ← subscript BASE_PRICES bs;
      size_multiplier ← subscript SIZE_MULTIPLIERS sz;
      let price := (base_price * size_multiplier)%float in
      milk_price ← subscript MILK_PRICES (_milk b);
      let price := (price + milk_price)%float in
      items ← load_tuple (_syrups b);
      let price := (price + float_of_len (length items) * SYRUP_PRICE)%float in
      let price := if _iced b then (price + ICED_PRICE)%float else price in
      ret price
  | _, _ => raise (Exn (ValueError "base and size must be set before calculating price"))
  end.

(** Lines 128-146. *)
Definition _build_description (self : loc) : M string :=
  b ← load_builder self;
  match _base b, _size b with
  | Some bs, Some sz =>
      let parts := [sz +:+ " " +:+ bs] in
      let parts :=
        if bool_decide (_milk b ≠ "none")
        then parts ++ ["with " +:+ _milk b +:+ " milk"] else parts in
      items ← load_tuple (_syrups b);
      let parts :=
        match items with
        | [] => parts
        | _ => let syrup_list := join "+" items in
               parts ++ ["+" +:+ syrup_list]
        end in
      let parts := if _iced b then parts ++ ["(iced)"] else parts in
      let parts :=
        if (0 <? _sugar b)%Z
        then parts ++ [str_int (_sugar b) +:+ " tsp sugar"] else parts in
      ret (join " " parts)
  | _, _ => ret ""
  end.

(** Lines 148-171.  The new order is given the builder's own tuple (line
    164), not a copy of it. *)
Definition build (self : loc) : M loc :=
  b ← load_builder self;
  match _base b with
  | None => raise (Exn (ValueError "base is required"))
  | Some bs =>
  match _size b with
  | None => raise (Exn (ValueError "size is required"))
  | Some sz =>
      items ← load_tuple (_syrups b);
      when (MAX_SYRUPS <? length items)%nat
        (ValueError ("cannot have more than " +:+ pretty MAX_SYRUPS +:+ " syrups"));;
      when (negb ((0 <=? _sugar b)%Z && (_sugar b <=? MAX_SUGAR)%Z))
        (ValueError ("sugar quantity must be between 0 and " +:+ str_int MAX_SUGAR));;
      price ← _calculate_price self;
      description ← _build_description self;
      b ← load_builder self;
      alloc (Order (mkOrder bs sz (_milk b) (_syrups b) (_sugar b) (_iced b)
                      price description))
  end
  end.

(** [CoffeeOrderBuilder()], lines 65-68, on a new object; the reference in
    [blank] stands for an attribute not yet bound and is never read. *)
Definition blank : CoffeeOrderBuilder := mkBuilder None None "" 0 0 false.
Definition __init__ (self : loc) : M unit :=
  clear_extras self;;
  set__base self None;;
  set__size self None.
Definition new_builder : M loc :=
  self ← alloc (Builder blank);
  __init__ self;;
  mret self.

(** A call [c] on the builder [self]. *)
Definition perform (self : loc) (c : call) : M (option loc) :=
  match c with
  | Set_base v => set_base self v;; mret None
  | Set_size v => set_size self v;; mret None
  | Set_milk v => set_milk self v;; mret None
  | Add_syrup v => add_syrup self v;; mret None
  | Set_sugar v => set_sugar self v;; mret None
  | Set_iced v => set_iced self v;; mret None
  | Clear_extras => clear_extras self;; mret None
  | Build => order ← build self; mret (Some order)
  end.

(** What a caller may do: make a builder, call a method of a builder, and
    assign to an attribute of any object it holds. *)
Inductive action : Type :=
  | New
  | Call (self : loc) (c : call)
  | Assign (target : loc) (name : string)
      (store : CoffeeOrderBuilder → CoffeeOrderBuilder).

Definition exec (a : action) : M (option loc) :=
  match a with
  | New => self ← new_builder; mret (Some self)
  | Call self c => perform self c
  | Assign target name store => setattr target name store;; mret None
  end.

(** The store after a sequence of actions, exceptions caught. *)
Definition run (acts : list action) (h : heap) : heap :=
  foldl (λ h a, snd (exec a h)) h acts.

End Obj.

(** The order a reference shows: the fields of the object and, for the
    syrups, the items of the tuple it refers to. *)
Definition view_order (h : list Obj.object) (a : Obj.loc) : option CoffeeOrder :=
  match h !! a with
  | Some (Obj.Order o) =>
      match h !! Obj.syrups o with
      | Some (Obj.Tuple items) =>
          Some (mkOrder (Obj.base o) (Obj.size o) (Obj.milk o) items
                  (Obj.sugar o) (Obj.iced o) (Obj.price o) (Obj.description o))
      | _ => None
      end
  | _ => None
  end.

(** The builder a reference shows. *)
Definition view_builder (h : list Obj.object) (self : Obj.loc)
    : option CoffeeOrderBuilder :=
  match h !! self with
  | Some (Obj.Builder b) =>
      match h !! Obj._syrups b with
      | Some (Obj.Tuple items) =>
          Some (mkBuilder (Obj._base b) (Obj._size b) (Obj._milk b) items
                  (Obj._sugar b) (Obj._iced b))
      | _ => None
      end
  | _ => None
  end.

(** The outcome of a call on the store, seen as an outcome on values. *)
Definition view_outcome (h : list Obj.object) (r : Obj.outcome (option Obj.loc))
    : option (outcome (option CoffeeOrder)) :=
  match r with
  | Obj.Return None => Some (Return None)
  | Obj.Return (Some a) => (λ A, Return (Some A)) <$> view_order h a
  | Obj.Raise (Obj.Exn e) => Some (Raise e)
  | Obj.Raise _ => None
  end.

(** [keeps h h']: every tuple and every order of [h] is in [h'] as it was,
    and every builder of [h] is still a builder. *)
Definition keeps (h h' : list Obj.object) : Prop :=
  ∀ (r : Obj.loc) (o : Obj.object),
    h !! r = Some o →
    match o with
    | Obj.Builder _ => ∃ b', h' !! r = Some (Obj.Builder b')
    | _ => h' !! r = Some o
    end.

(** A computation that writes no tuple and no order. *)
Definition frame {A} (m : Obj.M A) : Prop :=
  ∀ h, keeps h (snd (m h)).

(** ** The specification's side *)

(** [sub in s] on strings, as the test assertions use it. *)
Fixpoint str_contains (sub s : string) : bool :=
  String.prefix sub s ||
  match s with
  | EmptyString => false
  | String _ s' => str_contains sub s'
  end.

(** The three price tables as the specification prints them. *)
Definition spec_BASE_PRICE : list (string * float) :=
  [("espresso", 200.0%float); ("americano", 250.0%float);
   ("latte", 300.0%float); ("cappuccino", 320.0%float)].
Definition spec_SIZE_MULTIPLIER : list (string * float) :=
  [("small", 1.0%float); ("medium", 1.2%float); ("large", 1.4%float)].
Definition spec_MILK_SURCHARGE : list (string * float) :=
  [("none", 0.0%float); ("whole", 30.0%float); ("skim", 30.0%float);
   ("oat", 60.0%float); ("soy", 50.0%float)].

Definition row (t : list (string * float)) (k : string) : option float :=
  snd <$> List.find (λ kv, String.eqb (fst kv) k) t.

(** The pricing formula of the specification, evaluated left to right in
    binary64 as Python evaluates the expression; it has a value when the
    three names are rows of their tables. *)
Definition spec_price (base size milk : string) (syrups : list string)
    (iced : bool) : option float :=
  bp ← row spec_BASE_PRICE base;
  sm ← row spec_SIZE_MULTIPLIER size;
  mp ← row spec_MILK_SURCHARGE milk;
  Some (bp * sm + mp
        + float_of_len (length (remove_dups syrups)) * 40.0
        + (if iced then 0.2 else 0))%float.

(** The description of the specification: the optional parts, each present
    or absent, joined by single spaces; every syrup name carries its own
    leading [+]. *)
Definition spec_description (size base milk : string) (syrups : list string)
    (iced : bool) (sugar : Z) : string :=
  join " "
    ([size +:+ " " +:+ base]
     ++ (if decide (milk = "none") then [] else ["with " +:+ milk +:+ " milk"])
     ++ (if decide (syrups = []) then []
         else [foldr (λ name rest, "+" +:+ name +:+ rest) "" syrups])
     ++ (if iced then ["(iced)"] else [])
     ++ (if decide (0 < sugar)%Z then [pretty sugar +:+ " tsp sugar"] else [])).

(** ** Closed forms of the two computations of [build] *)

Definition price_of (bp sm mp : float) (n : nat) (iced : bool) : float :=
  let price := (bp * sm + mp + float_of_len n * SYRUP_PRICE)%float in
  if iced then (price + ICED_PRICE)%float else price.

Definition description_of (s b milk : string) (syrups : list string)
    (iced : bool) (sugar : Z) : string :=
  join " "
    ((((([s +:+ " " +:+ b]
         ++ (if bool_decide (milk ≠ "none") then ["with " +:+ milk +:+ " milk"] else []))
        ++ (match syrups with [] => [] | _ => ["+" +:+ join "+" syrups] end))
       ++ (if iced then ["(iced)"] else []))
      ++ (if (0 <? sugar)%Z then [str_int sugar +:+ " tsp sugar"] else []))).

(** The states on which [build] returns. *)
Definition buildable (self : CoffeeOrderBuilder) : Prop :=
  (∃ b, _base self = Some b ∧ b ∈ VALID_BASES) ∧
  (∃ s, _size self = Some s ∧ s ∈ VALID_SIZES) ∧
  _milk self ∈ VALID_MILKS ∧
  (length (_syrups self) ≤ 4)%nat ∧
  (0 ≤ _sugar self ≤ 5)%Z.

(** What every reachable builder satisfies. *)
Definition well_formed (self : CoffeeOrderBuilder) : Prop :=
  (∀ b, _base self = Some b → b ∈ VALID_BASES) ∧
  (∀ s, _size self = Some s → s ∈ VALID_SIZES) ∧
  _milk self ∈ VALID_MILKS ∧
  NoDup (_syrups self) ∧
  (length (_syrups self) ≤ 4)%nat ∧
  (0 ≤ _sugar self ≤ 5)%Z.

(** ** The rest of the module *)

(** [format(x, ".2f")]: the decimal with two fractional digits that is
    nearest to the exact value of the float, a tie going to the even
    neighbour.  [hundredths m e] is [m * 2^e * 100] so rounded. *)
Definition hundredths (m : positive) (e : Z) : Z :=
  let n := (Z.pos m * 100)%Z in
  if (0 <=? e)%Z then (n * 2 ^ e)%Z
  else
    let d := (2 ^ (- e))%Z in
    let q := (n `div` d)%Z in
    let r := (n `mod` d)%Z in
    if (2 * r <? d)%Z then q
    else if (d <? 2 * r)%Z then (q + 1)%Z
    else if Z.even q then q else (q + 1)%Z.

Definition two_digits (n : Z) : string :=
  if (n <? 10)%Z then "0" +:+ pretty n else pretty n.

Definition format_2f (x : float) : string :=
  match Prim2SF x with
  | S754_zero s => (if s then "-" else "") +:+ "0.00"
  | S754_infinity s => (if s then "-" else "") +:+ "inf"
  | S754_nan => "nan"
  | S754_finite s m e =>
      let h := hundredths m e in
      (if s then "-" else "") +:+ pretty (h `div` 100)%Z +:+ "."
        +:+ two_digits (h `mod` 100)%Z
  end.

(** [CoffeeOrder.__str__], lines 16-17; a string is true when it is not
    empty.  The text of the literal is held as its UTF-8 bytes. *)
Definition __str__ (self : CoffeeOrder) : string :=
  if bool_decide (description self ≠ "") then description self
  else "Coffee order: " +:+ format_2f (price self) +:+ " руб.".

(** [for x in l: body(x)]: the loop ends at the first exception, as the
    loop of lines 247-248 does. *)
Fixpoint for_each {A : Type} (body : A → M unit) (l : list A) : M unit :=
  match l with
  | [] => mret tt
  | x :: l => body x;; for_each body l
  end.

(** The attributes of the builder and the ones a call assigns. *)
Inductive attribute : Type :=
  | A_base | A_size | A_milk | A_syrups | A_sugar | A_iced.

#[global] Instance attribute_eq_dec : EqDecision attribute.
Proof. solve_decision. Defined.

Definition assigns (c : call) : list attribute :=
  match c with
  | Set_base _ => [A_base]
  | Set_size _ => [A_size]
  | Set_milk _ => [A_milk]
  | Add_syrup _ => [A_syrups]
  | Set_sugar _ => [A_sugar]
  | Set_iced _ => [A_iced]
  | Clear_extras => [A_milk; A_syrups; A_sugar; A_iced]
  | Build => []
  end.

(** Two builders agree on every attribute outside [attrs]. *)
Definition agree_outside (attrs : list attribute)
    (b1 b2 : CoffeeOrderBuilder) : Prop :=
  (A_base ∉ attrs → _base b1 = _base b2) ∧
  (A_size ∉ attrs → _size b1 = _size b2) ∧
  (A_milk ∉ attrs → _milk b1 = _milk b2) ∧
  (A_syrups ∉ attrs → _syrups b1 = _syrups b2) ∧
  (A_sugar ∉ attrs → _sugar b1 = _sugar b2) ∧
  (A_iced ∉ attrs → _iced b1 = _iced b2).

(** The condition under which a call returns. *)
Definition accepted (c : call) (self : CoffeeOrderBuilder) : Prop :=
  match c with
  | Set_base v => v ∈ VALID_BASES
  | Set_size v => v ∈ VALID_SIZES
  | Set_milk v => v ∈ VALID_MILKS
  | Add_syrup _ => (length (_syrups self) < 4)%nat
  | Set_sugar n => (0 ≤ n ≤ 5)%Z
  | Set_iced _ => True
  | Clear_extras => True
  | Build => buildable self
  end.

(** The builder a call leaves behind, in closed form. *)
Definition effect (c : call) (self : CoffeeOrderBuilder) : CoffeeOrderBuilder :=
  match c with
  | Set_base v =>
      if bool_decide (v ∈ VALID_BASES)
      then mkBuilder (Some v) (_size self) (_milk self) (_syrups self)
             (_sugar self) (_iced self)
      else self
  | Set_size v =>
      if bool_decide (v ∈ VALID_SIZES)
      then mkBuilder (_base self) (Some v) (_milk self) (_syrups self)
             (_sugar self) (_iced self)
      else self
  | Set_milk v =>
      if bool_decide (v ∈ VALID_MILKS)
      then mkBuilder (_base self) (_size self) v (_syrups self)
             (_sugar self) (_iced self)
      else self
  | Add_syrup name =>
      if bool_decide (length (_syrups self) < 4)%nat
      then if bool_decide (name ∈ _syrups self) then self
           else mkBuilder (_base self) (_size self) (_milk self)
                  (_syrups self ++ [name]) (_sugar self) (_iced self)
      else self
  | Set_sugar n =>
      if bool_decide (0 ≤ n ≤ 5)%Z
      then mkBuilder (_base self) (_size self) (_milk self) (_syrups self)
             n (_iced self)
      else self
  | Set_iced v =>
      mkBuilder (_base self) (_size self) (_milk self) (_syrups self)
        (_sugar self) v
  | Clear_extras => mkBuilder (_base self) (_size self) "none" [] 0 false
  | Build => self
  end.

(** * Properties *)

(** ** Runs of the module's own test scenarios *)

Example new_builder_fields :
  new_builder = mkBuilder None None "none" [] 0 false.
Proof. reflexivity. Qed.

Example order6_run :
  (set_base "latte";; set_size "medium";; add_syrup "vanilla";;
   add_syrup "vanilla";; add_syrup "vanilla";; build) new_builder
  = (Return (mkOrder "latte" "medium" "none" ["vanilla"] 0 false 400.0%float
               "medium latte +vanilla"),
     mkBuilder (Some "latte") (Some "medium") "none" ["vanilla"] 0 false).
Proof. vm_compute. reflexivity. Qed.

(** ** The tables *)

Lemma VALID_BASES_elem b :
  b ∈ VALID_BASES ↔
  b = "espresso" ∨ b = "americano" ∨ b = "latte" ∨ b = "cappuccino".
Proof. unfold VALID_BASES. set_solver. Qed.

Lemma VALID_SIZES_elem s :
  s ∈ VALID_SIZES ↔ s = "small" ∨ s = "medium" ∨ s = "large".
Proof. unfold VALID_SIZES. set_solver. Qed.

Lemma VALID_MILKS_elem m :
  m ∈ VALID_MILKS ↔
  m = "none" ∨ m = "whole" ∨ m = "skim" ∨ m = "oat" ∨ m = "soy".
Proof. unfold VALID_MILKS. set_solver. Qed.

(** Each validation set is the key set of its price table. *)
Lemma dom_BASE_PRICES : dom BASE_PRICES = VALID_BASES.
Proof. unfold BASE_PRICES, VALID_BASES. rewrite !dom_insert_L, dom_singleton_L. set_solver. Qed.

Lemma dom_SIZE_MULTIPLIERS : dom SIZE_MULTIPLIERS = VALID_SIZES.
Proof. unfold SIZE_MULTIPLIERS, VALID_SIZES. rewrite !dom_insert_L, dom_singleton_L. set_solver. Qed.

Lemma dom_MILK_PRICES : dom MILK_PRICES = VALID_MILKS.
Proof. unfold MILK_PRICES, VALID_MILKS. rewrite !dom_insert_L, dom_singleton_L. set_solver. Qed.

Lemma BASE_PRICES_valid b : b ∈ VALID_BASES → ∃ bp, BASE_PRICES !! b = Some bp.
Proof. rewrite <- dom_BASE_PRICES, elem_of_dom. intros [bp ?]. by exists bp. Qed.

Lemma SIZE_MULTIPLIERS_valid s : s ∈ VALID_SIZES → ∃ sm, SIZE_MULTIPLIERS !! s = Some sm.
Proof. rewrite <- dom_SIZE_MULTIPLIERS, elem_of_dom. intros [sm ?]. by exists sm. Qed.

Lemma MILK_PRICES_valid m : m ∈ VALID_MILKS → ∃ mp, MILK_PRICES !! m = Some mp.
Proof. rewrite <- dom_MILK_PRICES, elem_of_dom. intros [mp ?]. by exists mp. Qed.

(** The tables of the specification are the dictionaries of the class. *)
Lemma row_list_to_map (t : list (string * float)) (k : string) :
  row t k = (list_to_map t : gmap string float) !! k.
Proof.
  induction t as [|[k' v] t IH]; [done|].
  unfold row in *. cbn [List.find fst list_to_map foldr].
  destruct (String.eqb_spec k' k) as [->|Hne].
  - by rewrite lookup_insert_eq.
  - by rewrite lookup_insert_ne.
Qed.

Lemma row_BASE_PRICE b : row spec_BASE_PRICE b = BASE_PRICES !! b.
Proof. apply row_list_to_map. Qed.

Lemma row_SIZE_MULTIPLIER s : row spec_SIZE_MULTIPLIER s = SIZE_MULTIPLIERS !! s.
Proof. apply row_list_to_map. Qed.

Lemma row_MILK_SURCHARGE m : row spec_MILK_SURCHARGE m = MILK_PRICES !! m.
Proof. apply row_list_to_map. Qed.

(** ** [build] in closed form *)

Ltac unfold_M :=
  unfold when, subscript; unfold mbind, M_bind, mret, M_ret, bind;
  unfold ret, raise, get; cbn beta iota.

Lemma calculate_price_closed_form self b s bp sm mp :
  _base self = Some b → _size self = Some s →
  BASE_PRICES !! b = Some bp → SIZE_MULTIPLIERS !! s = Some sm →
  MILK_PRICES !! _milk self = Some mp →
  _calculate_price self =
    (Return (price_of bp sm mp (length (_syrups self)) (_iced self)), self).
Proof.
  intros Hb Hs Hbp Hsm Hmp. unfold _calculate_price, price_of. unfold_M.
  rewrite Hb, Hs, Hbp, Hsm, Hmp. by destruct (_iced self).
Qed.

Lemma build_description_closed_form self b s :
  _base self = Some b → _size self = Some s →
  _build_description self =
    (Return (description_of s b (_milk self) (_syrups self) (_iced self) (_sugar self)),
     self).
Proof.
  intros Hb Hs. unfold _build_description, description_of. unfold_M.
  rewrite Hb, Hs. f_equal. f_equal. f_equal.
  destruct (bool_decide _), (_syrups self), (_iced self), (0 <? _sugar self)%Z;
    simpl; by rewrite ?app_nil_r.
Qed.

Lemma build_closed_form self b s bp sm mp :
  _base self = Some b → _size self = Some s →
  BASE_PRICES !! b = Some bp → SIZE_MULTIPLIERS !! s = Some sm →
  MILK_PRICES !! _milk self = Some mp →
  (length (_syrups self) ≤ 4)%nat → (0 ≤ _sugar self ≤ 5)%Z →
  build self =
    (Return (mkOrder b s (_milk self) (_syrups self) (_sugar self) (_iced self)
               (price_of bp sm mp (length (_syrups self)) (_iced self))
               (description_of s b (_milk self) (_syrups self) (_iced self)
                  (_sugar self))),
     self).
Proof.
  intros Hb Hs Hbp Hsm Hmp Hlen Hsugar. unfold build.
  unfold mbind at 1, M_bind at 1, bind at 1, get at 1. rewrite Hb, Hs.
  unfold mbind at 1, M_bind at 1, bind at 1, when at 1.
  replace (MAX_SYRUPS <? length (_syrups self))%nat with false
    by (symmetry; apply Nat.ltb_ge; unfold MAX_SYRUPS; lia).
  unfold ret at 1.
  unfold mbind at 1, M_bind at 1, bind at 1, when at 1.
  replace (negb ((0 <=? _sugar self)%Z && (_sugar self <=? MAX_SUGAR)%Z)) with false
    by (symmetry; unfold MAX_SUGAR; apply negb_false_iff, andb_true_iff; split;
        apply Z.leb_le; lia).
  unfold ret at 1.
  unfold mbind at 1, M_bind at 1, bind at 1.
  rewrite (calculate_price_closed_form self b s bp sm mp) by done.
  unfold mbind at 1, M_bind at 1, bind at 1.
  rewrite (build_description_closed_form self b s) by done.
  reflexivity.
Qed.

(** ** Facts about the helpers *)

Lemma remove_dups_NoDup (l : list string) : NoDup l → remove_dups l = l.
Proof.
  induction 1 as [|x l Hx _ IH]; [done|].
  cbn. destruct (decide_rel _ x l); [done|]. by rewrite IH.
Qed.

Lemma BASE_PRICES_lookup b bp :
  BASE_PRICES !! b = Some bp ↔
  (b = "espresso" ∧ bp = 200.0%float) ∨ (b = "americano" ∧ bp = 250.0%float) ∨
  (b = "latte" ∧ bp = 300.0%float) ∨ (b = "cappuccino" ∧ bp = 320.0%float).
Proof.
  unfold BASE_PRICES. rewrite !lookup_insert_Some, lookup_singleton_Some.
  naive_solver.
Qed.

Lemma SIZE_MULTIPLIERS_lookup s sm :
  SIZE_MULTIPLIERS !! s = Some sm ↔
  (s = "small" ∧ sm = 1.0%float) ∨ (s = "medium" ∧ sm = 1.2%float) ∨
  (s = "large" ∧ sm = 1.4%float).
Proof.
  unfold SIZE_MULTIPLIERS. rewrite !lookup_insert_Some, lookup_singleton_Some.
  naive_solver.
Qed.

Lemma MILK_PRICES_lookup m mp :
  MILK_PRICES !! m = Some mp ↔
  (m = "none" ∧ mp = 0.0%float) ∨ (m = "whole" ∧ mp = 30.0%float) ∨
  (m = "skim" ∧ mp = 30.0%float) ∨ (m = "oat" ∧ mp = 60.0%float) ∨
  (m = "soy" ∧ mp = 50.0%float).
Proof.
  unfold MILK_PRICES. rewrite !lookup_insert_Some, lookup_singleton_Some.
  naive_solver.
Qed.

(** Case analysis on the rows of the three tables and on a syrup count of at
    most four. *)
Lemma at_most_four (n : nat) :
  (n ≤ 4)%nat → n = 0%nat ∨ n = 1%nat ∨ n = 2%nat ∨ n = 3%nat ∨ n = 4%nat.
Proof. lia. Qed.

Ltac price_cases Hbp Hsm Hmp Hn :=
  apply BASE_PRICES_lookup in Hbp; apply SIZE_MULTIPLIERS_lookup in Hsm;
  apply MILK_PRICES_lookup in Hmp; apply at_most_four in Hn;
  destruct_or!; destruct_and!; subst.

(** On the prices the tables produce, adding the integer [0] for a drink
    that is not iced changes nothing, so the accumulation of
    [_calculate_price] is the one-line formula. *)
Lemma price_of_formula b s m bp sm mp n iced :
  BASE_PRICES !! b = Some bp → SIZE_MULTIPLIERS !! s = Some sm →
  MILK_PRICES !! m = Some mp → (n ≤ 4)%nat →
  price_of bp sm mp n iced =
    (bp * sm + mp + float_of_len n * 40.0 + (if iced then 0.2 else 0))%float.
Proof.
  intros Hbp Hsm Hmp Hn. destruct iced; [reflexivity|].
  price_cases Hbp Hsm Hmp Hn; vm_compute; reflexivity.
Qed.

(** *** C1 *)

(** C1.  On a builder whose base and size are set (to names of the price
    tables, the only ones [set_base] and [set_size] store), whose milk is
    one of the five categories, whose syrups are at most four distinct names
    and whose sugar is between 0 and 5, [build] returns an order, leaves the
    builder as it was, and the order's price is the value of
    BASE_PRICE[base] * SIZE_MULTIPLIER[size] + MILK_SURCHARGE[milk]
    + (number of distinct syrups) * 40.0 + (0.2 if iced else 0)
    over the tables of the specification. *)
Theorem build_price_formula self b s :
  _base self = Some b → b ∈ VALID_BASES →
  _size self = Some s → s ∈ VALID_SIZES →
  _milk self ∈ VALID_MILKS →
  NoDup (_syrups self) → (length (_syrups self) ≤ 4)%nat →
  (0 ≤ _sugar self ≤ 5)%Z →
  ∃ order,
    build self = (Return order, self) ∧
    spec_price b s (_milk self) (_syrups self) (_iced self) = Some (price order).
Proof.
  intros Hb Hvb Hs Hvs Hvm Hnd Hlen Hsugar.
  destruct (BASE_PRICES_valid b Hvb) as [bp Hbp].
  destruct (SIZE_MULTIPLIERS_valid s Hvs) as [sm Hsm].
  destruct (MILK_PRICES_valid _ Hvm) as [mp Hmp].
  eexists. split; [by apply (build_closed_form self b s bp sm mp)|].
  cbn [price]. unfold spec_price.
  rewrite row_BASE_PRICE, row_SIZE_MULTIPLIER, row_MILK_SURCHARGE, Hbp, Hsm, Hmp.
  cbn. rewrite remove_dups_NoDup by done. f_equal. symmetry.
  by apply (price_of_formula b s (_milk self)).
Qed.

Lemma build_price_formula_witness :
  ∃ order,
    build (mkBuilder (Some "cappuccino") (Some "large") "oat"
             ["vanilla"; "caramel"] 2 true)
    = (Return order,
       mkBuilder (Some "cappuccino") (Some "large") "oat"
         ["vanilla"; "caramel"] 2 true) ∧
    spec_price "cappuccino" "large" "oat" ["vanilla"; "caramel"] true
    = Some (price order).
Proof.
  apply (build_price_formula
           (mkBuilder (Some "cappuccino") (Some "large") "oat"
              ["vanilla"; "caramel"] 2 true) "cappuccino" "large").
  - reflexivity.
  - vm_compute. reflexivity.
  - reflexivity.
  - vm_compute. reflexivity.
  - vm_compute. reflexivity.
  - apply (bool_decide_unpack _). vm_compute. exact I.
  - simpl. lia.
  - simpl. lia.
Defined.

(** ** [add_syrup] in closed form *)

Lemma add_syrup_full self name :
  (4 ≤ length (_syrups self))%nat →
  add_syrup name self = (Raise (ValueError "cannot add more than 4 syrups"), self).
Proof.
  intros Hlen. unfold add_syrup. unfold_M.
  replace (MAX_SYRUPS <=? length (_syrups self))%nat with true
    by (symmetry; apply Nat.leb_le; unfold MAX_SYRUPS; lia).
  reflexivity.
Qed.

Lemma add_syrup_present self name :
  (length (_syrups self) < 4)%nat → name ∈ _syrups self →
  add_syrup name self = (Return tt, self).
Proof.
  intros Hlen Hin. unfold add_syrup. unfold_M.
  replace (MAX_SYRUPS <=? length (_syrups self))%nat with false
    by (symmetry; apply Nat.leb_gt; unfold MAX_SYRUPS; lia).
  rewrite bool_decide_eq_false_2; [done|]. by intros Hn.
Qed.

Lemma add_syrup_new self name :
  (length (_syrups self) < 4)%nat → name ∉ _syrups self →
  add_syrup name self =
    (Return tt,
     mkBuilder (_base self) (_size self) (_milk self) (_syrups self ++ [name])
       (_sugar self) (_iced self)).
Proof.
  intros Hlen Hin. unfold add_syrup. unfold_M.
  replace (MAX_SYRUPS <=? length (_syrups self))%nat with false
    by (symmetry; apply Nat.leb_gt; unfold MAX_SYRUPS; lia).
  by rewrite bool_decide_eq_true_2.
Qed.

Lemma reachable_after cs self : reachable self → reachable (after cs self).
Proof.
  revert self. induction cs as [|c cs IH]; intros self Hr; [done|].
  apply IH. by constructor.
Qed.

(** *** C2 *)

(** C2, as the code has it.  For a name that is already among the syrups:
    while the builder holds fewer than four syrups, [add_syrup] returns and
    leaves the builder, and so its syrup sequence, as it was; once the
    builder holds four syrups, the capacity test of line 89 comes before the
    membership test of line 92 and the call raises [ValueError], again
    leaving the builder as it was. *)
Theorem add_syrup_present_name self name :
  name ∈ _syrups self →
  ((length (_syrups self) < 4)%nat → add_syrup name self = (Return tt, self)) ∧
  ((4 ≤ length (_syrups self))%nat →
   add_syrup name self =
     (Raise (ValueError "cannot add more than 4 syrups"), self)).
Proof.
  intros Hin. split; intros Hlen.
  - by apply add_syrup_present.
  - by apply add_syrup_full.
Qed.

Lemma add_syrup_present_name_witness :
  add_syrup "vanilla" (mkBuilder (Some "latte") (Some "medium") "none" ["vanilla"] 0 false)
  = (Return tt, mkBuilder (Some "latte") (Some "medium") "none" ["vanilla"] 0 false).
Proof.
  apply (add_syrup_present_name
           (mkBuilder (Some "latte") (Some "medium") "none" ["vanilla"] 0 false)
           "vanilla").
  - vm_compute. left.
  - simpl. lia.
Defined.

(** C2 as stated fails on a builder that four calls of [add_syrup] have
    filled: adding one of its four names again raises. *)
Lemma add_syrup_present_name_at_capacity :
  let self := after [Add_syrup "vanilla"; Add_syrup "caramel";
                     Add_syrup "hazelnut"; Add_syrup "chocolate"] new_builder in
  reachable self ∧
  _syrups self = ["vanilla"; "caramel"; "hazelnut"; "chocolate"] ∧
  "vanilla" ∈ _syrups self ∧
  add_syrup "vanilla" self =
    (Raise (ValueError "cannot add more than 4 syrups"), self).
Proof.
  intros self. split; [apply reachable_after, reachable_new|].
  split; [by vm_compute|]. split; [vm_compute; left|by vm_compute].
Qed.

(** *** C3 *)

(** C3.  On a new builder with base latte and size medium, three calls of
    [add_syrup "vanilla"] return, and [build] then returns an order with
    exactly one syrup whose price is the float 400.0. *)
Theorem vanilla_three_times :
  ∃ self1 self2 self3 order,
    (set_base "latte";; set_size "medium";; add_syrup "vanilla") new_builder
      = (Return tt, self1) ∧
    add_syrup "vanilla" self1 = (Return tt, self2) ∧
    add_syrup "vanilla" self2 = (Return tt, self3) ∧
    build self3 = (Return order, self3) ∧
    length (syrups order) = 1%nat ∧
    price order = 400.0%float ∧
    PrimFloat.eqb (price order) (300 * 1.2 + 40) = true.
Proof.
  do 4 eexists. repeat split; vm_compute; reflexivity.
Qed.

(** *** C4 *)

(** C4 fails on the code, on the very run of the module's own test (lines
    268-272): americano, small, built without and then with ice.  In
    binary64 the two prices are 250.0 and 250.2 (rounded), and their
    difference is 0.19999999999998863, not [ICED_PRICE]. *)
Theorem iced_difference_americano_small :
  ∃ builder7 builder7' order7_no_ice order7_ice,
    (set_base "americano";; set_size "small";; build) new_builder
      = (Return order7_no_ice, builder7) ∧
    (set_iced true;; build) builder7 = (Return order7_ice, builder7') ∧
    price order7_no_ice = 250.0%float ∧
    (price order7_ice - price order7_no_ice)%float = 0.19999999999998863%float ∧
    PrimFloat.eqb (price order7_ice - price order7_no_ice) ICED_PRICE = false.
Proof.
  do 4 eexists. repeat split; vm_compute; reflexivity.
Qed.

(** The same holds of every order [build] can return: the difference
    between the iced and the plain price is never the float 0.2. *)
Lemma iced_difference_never_exact b s m bp sm mp n :
  BASE_PRICES !! b = Some bp → SIZE_MULTIPLIERS !! s = Some sm →
  MILK_PRICES !! m = Some mp → (n ≤ 4)%nat →
  PrimFloat.eqb (price_of bp sm mp n true - price_of bp sm mp n false) ICED_PRICE
  = false.
Proof.
  intros Hbp Hsm Hmp Hn.
  price_cases Hbp Hsm Hmp Hn; vm_compute; reflexivity.
Qed.

(** ** When [build] returns *)

(** [build] as one case analysis on the receiver. *)
Lemma build_cases self :
  build self =
  match _base self with
  | None => (Raise (ValueError "base is required"), self)
  | Some b =>
  match _size self with
  | None => (Raise (ValueError "size is required"), self)
  | Some s =>
    if (4 <? length (_syrups self))%nat
    then (Raise (ValueError "cannot have more than 4 syrups"), self)
    else if negb ((0 <=? _sugar self)%Z && (_sugar self <=? 5)%Z)
    then (Raise (ValueError "sugar quantity must be between 0 and 5"), self)
    else
      match BASE_PRICES !! b with
      | None => (Raise (KeyError b), self)
      | Some bp =>
      match SIZE_MULTIPLIERS !! s with
      | None => (Raise (KeyError s), self)
      | Some sm =>
      match MILK_PRICES !! _milk self with
      | None => (Raise (KeyError (_milk self)), self)
      | Some mp =>
          (Return (mkOrder b s (_milk self) (_syrups self) (_sugar self)
                     (_iced self)
                     (price_of bp sm mp (length (_syrups self)) (_iced self))
                     (description_of s b (_milk self) (_syrups self)
                        (_iced self) (_sugar self))),
           self)
      end end end
  end end.
Proof.
  unfold build, _calculate_price. unfold_M. unfold MAX_SYRUPS, MAX_SUGAR.
  destruct (_base self) as [b|] eqn:Hb; [|done].
  destruct (_size self) as [s|] eqn:Hs; [|done].
  destruct (4 <? length (_syrups self))%nat; [done|].
  destruct (negb _); [done|]. cbn beta iota. rewrite Hb, Hs. cbn beta iota.
  destruct (BASE_PRICES !! b) as [bp|]; [|done].
  destruct (SIZE_MULTIPLIERS !! s) as [sm|]; [|done].
  destruct (MILK_PRICES !! _milk self) as [mp|]; [|done]. cbn beta iota.
  rewrite (build_description_closed_form self b s) by done.
  unfold price_of. by destruct (_iced self).
Qed.

Lemma build_returns_inv self order self' :
  build self = (Return order, self') →
  ∃ b s bp sm mp,
    _base self = Some b ∧ _size self = Some s ∧
    BASE_PRICES !! b = Some bp ∧ SIZE_MULTIPLIERS !! s = Some sm ∧
    MILK_PRICES !! _milk self = Some mp ∧
    (length (_syrups self) ≤ 4)%nat ∧ (0 ≤ _sugar self ≤ 5)%Z ∧
    self' = self ∧
    order = mkOrder b s (_milk self) (_syrups self) (_sugar self) (_iced self)
              (price_of bp sm mp (length (_syrups self)) (_iced self))
              (description_of s b (_milk self) (_syrups self) (_iced self)
                 (_sugar self)).
Proof.
  rewrite build_cases. intros Hbuild.
  destruct (_base self) as [b|]; [|done].
  destruct (_size self) as [s|]; [|done].
  destruct (Nat.ltb_spec 4 (length (_syrups self))); [done|].
  destruct (negb _) eqn:Hsugar; [done|].
  apply negb_false_iff, andb_true_iff in Hsugar as [?%Z.leb_le ?%Z.leb_le].
  destruct (BASE_PRICES !! b) as [bp|] eqn:Hbp; [|done].
  destruct (SIZE_MULTIPLIERS !! s) as [sm|] eqn:Hsm; [|done].
  destruct (MILK_PRICES !! _milk self) as [mp|] eqn:Hmp; [|done].
  injection Hbuild as <- <-. by exists b, s, bp, sm, mp.
Qed.

(** [build] never changes the builder, whatever its outcome. *)
Lemma build_keeps_builder self : snd (build self) = self.
Proof.
  rewrite build_cases.
  repeat match goal with
         | |- context [match ?x with _ => _ end] => destruct x
         end; reflexivity.
Qed.

Lemma append_empty_r (x : string) : x +:+ "" = x.
Proof.
  induction x as [|c x IH]; [done|].
  change (String c (x +:+ "") = String c x). by rewrite IH.
Qed.

(** The two ways of writing the syrup part agree: ["+"] in front of the
    names joined by ["+"], and every name with its own ["+"]. *)
Lemma plus_join_foldr (x : string) (l : list string) :
  "+" +:+ join "+" (x :: l) = foldr (λ name rest, "+" +:+ name +:+ rest) "" (x :: l).
Proof.
  revert x. induction l as [|y l IH]; intros x.
  - cbn [join foldr]. by rewrite append_empty_r.
  - change ("+" +:+ x +:+ "+" +:+ join "+" (y :: l)
            = "+" +:+ x +:+ foldr (λ name rest, "+" +:+ name +:+ rest) "" (y :: l)).
    by rewrite IH.
Qed.

Lemma description_of_spec s b m l i n :
  description_of s b m l i n = spec_description s b m l i n.
Proof.
  unfold description_of, spec_description. f_equal.
  rewrite <- !app_assoc. f_equal. f_equal; [|f_equal; [|f_equal]].
  - case_bool_decide; by case_decide.
  - destruct l as [|x l]; [done|]. rewrite decide_False by done.
    by rewrite plus_join_foldr.
  - destruct (Z.ltb_spec 0 n); [by rewrite decide_True|by rewrite decide_False by lia].
Qed.

Lemma buildable_returns self :
  buildable self → ∃ order, build self = (Return order, self).
Proof.
  intros ((b & Hb & Hvb) & (s & Hs & Hvs) & Hvm & Hlen & Hsugar).
  destruct (BASE_PRICES_valid b Hvb) as [bp Hbp].
  destruct (SIZE_MULTIPLIERS_valid s Hvs) as [sm Hsm].
  destruct (MILK_PRICES_valid _ Hvm) as [mp Hmp].
  eexists. by apply (build_closed_form self b s bp sm mp).
Qed.

(** *** C5 *)

(** C5.  On a builder with base and size set, [build] returns on every
    buildable state, and the description of whatever order it returns is the
    space-join of "{size} {base}", "with {milk} milk" if milk is not none,
    the syrup names each with a leading "+", in insertion order, if there is
    a syrup, "(iced)" if iced, and "{sugar} tsp sugar" if sugar > 0.  The
    large iced oat cappuccino with vanilla, caramel and 2 sugars is
    described as
    "large cappuccino with oat milk +vanilla+caramel (iced) 2 tsp sugar". *)
Theorem build_description_spec :
  (∀ self b s,
     _base self = Some b → _size self = Some s →
     (buildable self → ∃ order, build self = (Return order, self)) ∧
     (∀ order self',
        build self = (Return order, self') →
        description order =
          spec_description s b (_milk self) (_syrups self) (_iced self)
            (_sugar self))) ∧
  (∃ order,
     build (mkBuilder (Some "cappuccino") (Some "large") "oat"
              ["vanilla"; "caramel"] 2 true)
     = (Return order,
        mkBuilder (Some "cappuccino") (Some "large") "oat"
          ["vanilla"; "caramel"] 2 true) ∧
     description order
     = "large cappuccino with oat milk +vanilla+caramel (iced) 2 tsp sugar").
Proof.
  split.
  - intros self b s Hb Hs. split; [apply buildable_returns|].
    intros order self' Hbuild.
    apply build_returns_inv in Hbuild
      as (b' & s' & bp & sm & mp & Hb' & Hs' & _ & _ & _ & _ & _ & _ & ->).
    rewrite Hb in Hb'. rewrite Hs in Hs'. injection Hb' as <-. injection Hs' as <-.
    cbn [description]. apply description_of_spec.
  - eexists. split; vm_compute; reflexivity.
Qed.

Lemma build_description_spec_witness :
  ∃ order,
    build (mkBuilder (Some "latte") (Some "small") "soy" ["mint"] 0 false)
    = (Return order, mkBuilder (Some "latte") (Some "small") "soy" ["mint"] 0 false) ∧
    description order = spec_description "small" "latte" "soy" ["mint"] false 0.
Proof.
  destruct (proj1 build_description_spec
              (mkBuilder (Some "latte") (Some "small") "soy" ["mint"] 0 false)
              "latte" "small" eq_refl eq_refl) as [Hreturns Hdescription].
  destruct Hreturns as [order Horder].
  - split; [exists "latte"; split; [reflexivity|vm_compute; reflexivity]|].
    split; [exists "small"; split; [reflexivity|vm_compute; reflexivity]|].
    split; [vm_compute; reflexivity|]. simpl. lia.
  - exists order. split; [exact Horder|]. exact (Hdescription order _ Horder).
Defined.

(** *** C6 *)

(** C6.  On a builder that holds four syrups, [add_syrup] with a name that
    is not among them raises the capacity error, whose message names the
    limit ("... more than 4 syrups"), and the builder, its syrups and every
    other field, is left as it was. *)
Theorem add_syrup_fifth self name :
  length (_syrups self) = 4%nat → name ∉ _syrups self →
  ∃ msg,
    add_syrup name self = (Raise (ValueError msg), self) ∧
    msg = "cannot add more than 4 syrups" ∧
    str_contains "more than 4 syrups" msg = true.
Proof.
  intros Hlen _. eexists. split; [apply add_syrup_full; lia|]. by split.
Qed.

Lemma add_syrup_fifth_witness :
  ∃ msg,
    add_syrup "mint"
      (mkBuilder (Some "latte") (Some "medium") "none"
         ["vanilla"; "caramel"; "hazelnut"; "chocolate"] 0 false)
    = (Raise (ValueError msg),
       mkBuilder (Some "latte") (Some "medium") "none"
         ["vanilla"; "caramel"; "hazelnut"; "chocolate"] 0 false) ∧
    msg = "cannot add more than 4 syrups" ∧
    str_contains "more than 4 syrups" msg = true.
Proof.
  apply (add_syrup_fifth
           (mkBuilder (Some "latte") (Some "medium") "none"
              ["vanilla"; "caramel"; "hazelnut"; "chocolate"] 0 false) "mint").
  - reflexivity.
  - apply (bool_decide_unpack _). vm_compute. exact I.
Defined.

(** *** C7 *)

(** C7.  Without a base, [build] raises the error "base is required"; with
    a base and without a size it raises "size is required"; either way no
    order is returned and the builder is left as it was. *)
Theorem build_missing_field self :
  (_base self = None →
   build self = (Raise (ValueError "base is required"), self)) ∧
  (∀ b, _base self = Some b → _size self = None →
   build self = (Raise (ValueError "size is required"), self)).
Proof.
  split.
  - intros Hb. by rewrite build_cases, Hb.
  - intros b Hb Hs. by rewrite build_cases, Hb, Hs.
Qed.

Lemma build_missing_field_witness :
  build (mkBuilder None (Some "medium") "none" [] 0 false)
  = (Raise (ValueError "base is required"),
     mkBuilder None (Some "medium") "none" [] 0 false) ∧
  build (mkBuilder (Some "espresso") None "none" [] 0 false)
  = (Raise (ValueError "size is required"),
     mkBuilder (Some "espresso") None "none" [] 0 false).
Proof.
  split.
  - apply (proj1 (build_missing_field
                    (mkBuilder None (Some "medium") "none" [] 0 false))).
    reflexivity.
  - apply (proj2 (build_missing_field
                    (mkBuilder (Some "espresso") None "none" [] 0 false))
             "espresso"); reflexivity.
Defined.

(** *** C8 *)

Lemma price_of_plain b s bp sm :
  BASE_PRICES !! b = Some bp → SIZE_MULTIPLIERS !! s = Some sm →
  price_of bp sm 0.0 0 false = (bp * sm)%float.
Proof.
  intros Hbp Hsm.
  apply BASE_PRICES_lookup in Hbp. apply SIZE_MULTIPLIERS_lookup in Hsm.
  destruct_or!; destruct_and!; subst; vm_compute; reflexivity.
Qed.

(** C8.  [clear_extras] returns on every builder; it leaves milk none, no
    syrup, sugar 0 and iced false, and base and size as they were.  A
    [build] right after it, with base and size set, returns the order of
    that base and size with these defaults: the price is
    BASE_PRICES[base] * SIZE_MULTIPLIERS[size] and the description is
    "{size} {base}". *)
Theorem clear_extras_resets self :
  clear_extras self
  = (Return tt, mkBuilder (_base self) (_size self) "none" [] 0 false) ∧
  ∀ b s,
    _base self = Some b → b ∈ VALID_BASES →
    _size self = Some s → s ∈ VALID_SIZES →
    ∃ bp sm,
      BASE_PRICES !! b = Some bp ∧ SIZE_MULTIPLIERS !! s = Some sm ∧
      (clear_extras;; build) self
      = (Return (mkOrder b s "none" [] 0 false (bp * sm)%float (s +:+ " " +:+ b)),
         mkBuilder (Some b) (Some s) "none" [] 0 false).
Proof.
  split; [reflexivity|]. intros b s Hb Hvb Hs Hvs.
  destruct (BASE_PRICES_valid b Hvb) as [bp Hbp].
  destruct (SIZE_MULTIPLIERS_valid s Hvs) as [sm Hsm].
  exists bp, sm. split; [done|]. split; [done|].
  change ((clear_extras;; build) self)
    with (build (mkBuilder (_base self) (_size self) "none" [] 0 false)).
  rewrite Hb, Hs.
  rewrite (build_closed_form _ b s bp sm 0.0%float) by (done || simpl; lia).
  cbn [_milk _syrups _sugar _iced length].
  by rewrite (price_of_plain b s).
Qed.

Lemma clear_extras_resets_witness :
  ∃ bp sm,
    BASE_PRICES !! "espresso" = Some bp ∧ SIZE_MULTIPLIERS !! "small" = Some sm ∧
    (clear_extras;; build)
      (mkBuilder (Some "espresso") (Some "small") "soy" ["chocolate"] 3 true)
    = (Return (mkOrder "espresso" "small" "none" [] 0 false (bp * sm)%float
                 ("small" +:+ " " +:+ "espresso")),
       mkBuilder (Some "espresso") (Some "small") "none" [] 0 false).
Proof.
  apply (proj2 (clear_extras_resets
                  (mkBuilder (Some "espresso") (Some "small") "soy"
                     ["chocolate"] 3 true)) "espresso" "small").
  - reflexivity.
  - vm_compute. reflexivity.
  - reflexivity.
  - vm_compute. reflexivity.
Defined.

(** ** Reachable builders *)

Lemma set_base_cases v self :
  set_base v self =
  if bool_decide (v ∈ VALID_BASES)
  then (Return tt, mkBuilder (Some v) (_size self) (_milk self) (_syrups self)
                     (_sugar self) (_iced self))
  else (Raise (ValueError ("Invalid base: " +:+ v +:+ ". Must be one of "
                           +:+ repr_set VALID_BASES)), self).
Proof.
  unfold set_base. unfold_M. rewrite bool_decide_not.
  by destruct (bool_decide _).
Qed.

Lemma set_size_cases v self :
  set_size v self =
  if bool_decide (v ∈ VALID_SIZES)
  then (Return tt, mkBuilder (_base self) (Some v) (_milk self) (_syrups self)
                     (_sugar self) (_iced self))
  else (Raise (ValueError ("invalid size: " +:+ v +:+ ". must be one of "
                           +:+ repr_set VALID_SIZES)), self).
Proof.
  unfold set_size. unfold_M. rewrite bool_decide_not.
  by destruct (bool_decide _).
Qed.

Lemma set_milk_cases v self :
  set_milk v self =
  if bool_decide (v ∈ VALID_MILKS)
  then (Return tt, mkBuilder (_base self) (_size self) v (_syrups self)
                     (_sugar self) (_iced self))
  else (Raise (ValueError ("invalid milk type: " +:+ v +:+ ". must be one of "
                           +:+ repr_set VALID_MILKS)), self).
Proof.
  unfold set_milk. unfold_M. rewrite bool_decide_not.
  by destruct (bool_decide _).
Qed.

Lemma set_sugar_cases n self :
  set_sugar n self =
  if bool_decide (0 ≤ n ≤ 5)%Z
  then (Return tt, mkBuilder (_base self) (_size self) (_milk self) (_syrups self)
                     n (_iced self))
  else (Raise (ValueError "sugar quantity must be between 0 and 5"), self).
Proof.
  unfold set_sugar, MAX_SUGAR. unfold_M.
  case_bool_decide as Hn.
  - replace (negb ((0 <=? n)%Z && (n <=? 5)%Z)) with false; [done|].
    symmetry. apply negb_false_iff, andb_true_iff. split; apply Z.leb_le; lia.
  - replace (negb ((0 <=? n)%Z && (n <=? 5)%Z)) with true; [done|].
    symmetry. apply negb_true_iff, andb_false_iff.
    destruct (Z.leb_spec 0 n); [right; apply Z.leb_gt; lia|by left].
Qed.

Lemma clear_extras_cases self :
  clear_extras self
  = (Return tt, mkBuilder (_base self) (_size self) "none" [] 0 false).
Proof. reflexivity. Qed.

Lemma new_builder_well_formed : well_formed new_builder.
Proof.
  rewrite new_builder_fields. unfold well_formed. cbn.
  split; [done|]. split; [done|]. split; [apply VALID_MILKS_elem; by left|].
  split; [constructor|]. lia.
Qed.

Lemma perform_well_formed c self :
  well_formed self → well_formed (snd (perform c self)).
Proof.
  intros (Hb & Hs & Hm & Hnd & Hlen & Hsugar).
  destruct c as [v|v|v|v|v|v| |]; unfold perform;
    unfold mbind, M_bind, bind.
  - rewrite set_base_cases. case_bool_decide; cbn; [|done].
    repeat split; cbn; try done; try lia. by intros ? [= <-].
  - rewrite set_size_cases. case_bool_decide; cbn; [|done].
    repeat split; cbn; try done; try lia. by intros ? [= <-].
  - rewrite set_milk_cases. case_bool_decide; cbn; [|done].
    repeat split; cbn; try done; lia.
  - destruct (decide (length (_syrups self) < 4)%nat) as [Hlt|Hge].
    + destruct (decide (v ∈ _syrups self)) as [Hin|Hnin].
      * rewrite add_syrup_present by done. cbn. done.
      * rewrite add_syrup_new by done. cbn.
        repeat split; cbn; try done; try lia.
        -- apply NoDup_app. repeat split; [done| |apply NoDup_singleton].
           intros x Hx ->%list_elem_of_singleton. done.
        -- rewrite length_app. cbn. lia.
    + rewrite add_syrup_full by lia. cbn. done.
  - rewrite set_sugar_cases. case_bool_decide; cbn; [|done].
    repeat split; cbn; try done; lia.
  - cbn. repeat split; cbn; try done; lia.
  - rewrite clear_extras_cases. unfold well_formed. cbn.
    split; [done|]. split; [done|]. split; [apply VALID_MILKS_elem; by left|].
    split; [constructor|]. lia.
  - pose proof (build_keeps_builder self) as Hk.
    destruct (build self) as [[order|e] self'']; cbn in *; subst; done.
Qed.

Lemma reachable_well_formed self : reachable self → well_formed self.
Proof.
  induction 1 as [|c self _ IH]; [apply new_builder_well_formed|].
  by apply perform_well_formed.
Qed.

(** A reachable builder with base and size set is buildable: the setters
    store nothing but names of the tables. *)
Lemma reachable_buildable self b s :
  reachable self → _base self = Some b → _size self = Some s →
  buildable self ∧ NoDup (_syrups self).
Proof.
  intros (Hvb & Hvs & Hm & Hnd & Hlen & Hsugar)%reachable_well_formed Hb Hs.
  split; [|done]. unfold buildable.
  split; [exists b; auto|]. split; [exists s; auto|]. auto.
Qed.

(** *** C10 *)

(** C10.  In every builder reachable from a new one by the public calls the
    syrups are pairwise distinct and at most four and the sugar is between
    0 and 5; so neither of the two re-checks of [build] (lines 153-156)
    holds, and [build] raises neither of their errors. *)
Theorem reachable_invariant self :
  reachable self →
  NoDup (_syrups self) ∧ (length (_syrups self) ≤ 4)%nat ∧
  (0 ≤ _sugar self ≤ 5)%Z ∧
  (MAX_SYRUPS <? length (_syrups self))%nat = false ∧
  negb ((0 <=? _sugar self)%Z && (_sugar self <=? MAX_SUGAR)%Z) = false ∧
  fst (build self) ≠ Raise (ValueError "cannot have more than 4 syrups") ∧
  fst (build self) ≠ Raise (ValueError "sugar quantity must be between 0 and 5").
Proof.
  intros (Hb & Hs & Hm & Hnd & Hlen & Hsugar)%reachable_well_formed.
  assert (Hl : (MAX_SYRUPS <? length (_syrups self))%nat = false)
    by (apply Nat.ltb_ge; unfold MAX_SYRUPS; lia).
  assert (Hg : negb ((0 <=? _sugar self)%Z && (_sugar self <=? MAX_SUGAR)%Z) = false)
    by (unfold MAX_SUGAR; apply negb_false_iff, andb_true_iff; split;
        apply Z.leb_le; lia).
  repeat split; try done; try lia.
  - rewrite build_cases. unfold MAX_SYRUPS, MAX_SUGAR in *.
    destruct (_base self) as [b|]; [|done].
    destruct (_size self) as [s|]; [|done].
    rewrite Hl, Hg.
    destruct (BASE_PRICES_valid b (Hb b eq_refl)) as [bp ->].
    destruct (SIZE_MULTIPLIERS_valid s (Hs s eq_refl)) as [sm ->].
    destruct (MILK_PRICES_valid _ Hm) as [mp ->]. done.
  - rewrite build_cases. unfold MAX_SYRUPS, MAX_SUGAR in *.
    destruct (_base self) as [b|]; [|done].
    destruct (_size self) as [s|]; [|done].
    rewrite Hl, Hg.
    destruct (BASE_PRICES_valid b (Hb b eq_refl)) as [bp ->].
    destruct (SIZE_MULTIPLIERS_valid s (Hs s eq_refl)) as [sm ->].
    destruct (MILK_PRICES_valid _ Hm) as [mp ->]. done.
Qed.

Lemma reachable_invariant_witness :
  let self := after [Set_base "latte"; Add_syrup "vanilla"; Add_syrup "vanilla";
                     Set_sugar 9; Set_sugar 3] new_builder in
  NoDup (_syrups self) ∧ (length (_syrups self) ≤ 4)%nat ∧
  (0 ≤ _sugar self ≤ 5)%Z ∧
  (MAX_SYRUPS <? length (_syrups self))%nat = false ∧
  negb ((0 <=? _sugar self)%Z && (_sugar self <=? MAX_SUGAR)%Z) = false ∧
  fst (build self) ≠ Raise (ValueError "cannot have more than 4 syrups") ∧
  fst (build self) ≠ Raise (ValueError "sugar quantity must be between 0 and 5").
Proof.
  intros self. apply (reachable_invariant self).
  apply reachable_after, reachable_new.
Defined.

(** * Further properties of the module *)

(** ** Every call in closed form *)

Lemma add_syrup_cases name self :
  add_syrup name self =
  if bool_decide (length (_syrups self) < 4)%nat
  then (Return tt, effect (Add_syrup name) self)
  else (Raise (ValueError "cannot add more than 4 syrups"), self).
Proof.
  cbn [effect]. case_bool_decide as Hlen.
  - case_bool_decide as Hin.
    + by apply add_syrup_present.
    + by apply add_syrup_new.
  - apply add_syrup_full. lia.
Qed.

Lemma perform_effect c self : snd (perform c self) = effect c self.
Proof.
  destruct c as [v|v|v|v|v|v| |]; unfold perform, mbind, M_bind, bind; cbn [effect].
  - rewrite set_base_cases. by case_bool_decide.
  - rewrite set_size_cases. by case_bool_decide.
  - rewrite set_milk_cases. by case_bool_decide.
  - rewrite add_syrup_cases. cbn [effect]. by repeat case_bool_decide.
  - rewrite set_sugar_cases. by case_bool_decide.
  - reflexivity.
  - reflexivity.
  - pose proof (build_keeps_builder self) as Hk.
    by destruct (build self) as [[order|e] self'].
Qed.

Lemma build_returns_buildable self order self' :
  build self = (Return order, self') → buildable self.
Proof.
  intros (b & s & bp & sm & mp & Hb & Hs & Hbp & Hsm & Hmp & Hlen & Hsugar & _)
    %build_returns_inv.
  repeat split; try done; try lia.
  - exists b. split; [done|]. rewrite <- dom_BASE_PRICES. apply elem_of_dom. eauto.
  - exists s. split; [done|]. rewrite <- dom_SIZE_MULTIPLIERS. apply elem_of_dom. eauto.
  - rewrite <- dom_MILK_PRICES. apply elem_of_dom. eauto.
Qed.

(** ** Errors *)

(** X1.  A call returns exactly when its argument is accepted: a base, size
    or milk of the matching set, a sugar count from 0 to 5, a syrup while
    fewer than four are held (whatever the name), and for [build] a builder
    with valid base, size and milk, at most four syrups and sugar from 0 to
    5; [set_iced] and [clear_extras] always return. *)
Theorem perform_returns_iff c self :
  (∃ r, fst (perform c self) = Return r) ↔ accepted c self.
Proof.
  destruct c as [v|v|v|v|v|v| |]; unfold perform, mbind, M_bind, bind;
    cbn [accepted].
  - rewrite set_base_cases. case_bool_decide; cbn; split; eauto;
      try (by intros [? ?]); try done; lia.
  - rewrite set_size_cases. case_bool_decide; cbn; split; eauto;
      try (by intros [? ?]); try done; lia.
  - rewrite set_milk_cases. case_bool_decide; cbn; split; eauto;
      try (by intros [? ?]); try done; lia.
  - rewrite add_syrup_cases. case_bool_decide; cbn; split; eauto;
      try (by intros [? ?]); try done; lia.
  - rewrite set_sugar_cases. case_bool_decide; cbn; split; eauto;
      try (by intros [? ?]); try done; lia.
  - cbn. split; eauto.
  - cbn. split; eauto.
  - split.
    + intros [r Hr]. destruct (build self) as [[order|e] self'] eqn:Hbuild;
        cbn in Hr; [|done].
      by eapply build_returns_buildable.
    + intros [order ->]%buildable_returns. cbn. eauto.
Qed.

(** X2.  A call that raises leaves the builder exactly as it found it. *)
Theorem perform_raise_unchanged c self e :
  fst (perform c self) = Raise e → snd (perform c self) = self.
Proof.
  destruct c as [v|v|v|v|v|v| |]; unfold perform, mbind, M_bind, bind.
  - rewrite set_base_cases. by case_bool_decide.
  - rewrite set_size_cases. by case_bool_decide.
  - rewrite set_milk_cases. by case_bool_decide.
  - rewrite add_syrup_cases. by case_bool_decide.
  - rewrite set_sugar_cases. by case_bool_decide.
  - done.
  - done.
  - intros _. pose proof (build_keeps_builder self) as Hk.
    by destruct (build self) as [[order|e'] self'].
Qed.

Lemma perform_raise_unchanged_witness :
  snd (perform (Set_sugar 10)
         (mkBuilder (Some "latte") (Some "medium") "soy" ["mint"] 3 true))
  = mkBuilder (Some "latte") (Some "medium") "soy" ["mint"] 3 true.
Proof.
  apply (perform_raise_unchanged (Set_sugar 10)
           (mkBuilder (Some "latte") (Some "medium") "soy" ["mint"] 3 true)
           (ValueError "sugar quantity must be between 0 and 5")).
  vm_compute. reflexivity.
Defined.

(** ** What a call touches *)

(** X3.  A call changes no attribute but the ones its method assigns:
    [set_base] only the base, [add_syrup] only the syrups, [clear_extras]
    the four extras and never base or size, [build] nothing. *)
Theorem perform_frame c self :
  agree_outside (assigns c) self (snd (perform c self)).
Proof.
  rewrite perform_effect. unfold agree_outside.
  destruct c as [v|v|v|v|v|v| |]; cbn [effect assigns];
    repeat case_bool_decide; cbn; repeat split; try done;
    intros Hn; exfalso; apply Hn; set_solver.
Qed.

(** X4.  Every call is idempotent on the builder: making the same call
    twice in a row leaves the builder the first call left. *)
Theorem perform_idempotent c self :
  after [c; c] self = after [c] self.
Proof.
  unfold after. cbn [foldl]. rewrite !perform_effect.
  destruct c as [v|v|v|v|v|v| |]; cbn [effect]; try done.
  - by case_bool_decide.
  - by case_bool_decide.
  - by case_bool_decide.
  - destruct (decide (length (_syrups self) < 4)%nat) as [Hlen|Hlen].
    + rewrite !(bool_decide_eq_true_2 _ Hlen).
      destruct (decide (v ∈ _syrups self)) as [Hin|Hin].
      * rewrite !(bool_decide_eq_true_2 _ Hin).
        by rewrite ?(bool_decide_eq_true_2 _ Hlen), ?(bool_decide_eq_true_2 _ Hin).
      * rewrite !(bool_decide_eq_false_2 _ Hin). cbn [_syrups].
        rewrite (bool_decide_eq_true_2 (v ∈ _syrups self ++ [v])) by set_solver.
        by case_bool_decide.
    + rewrite !(bool_decide_eq_false_2 _ Hlen).
      by rewrite ?(bool_decide_eq_false_2 _ Hlen).
  - by case_bool_decide.
Qed.

(** X5.  Two calls that assign different attributes can be made in either
    order: the builder they leave is the same, whether or not one of them
    raises. *)
Theorem perform_commute c1 c2 self :
  assigns c1 ## assigns c2 →
  after [c1; c2] self = after [c2; c1] self.
Proof.
  intros Hdisj. unfold after. cbn [foldl]. rewrite !perform_effect.
  destruct c1 as [v1|v1|v1|v1|v1|v1| |], c2 as [v2|v2|v2|v2|v2|v2| |];
    cbn [assigns] in Hdisj;
    first [ by (cbn [effect]; repeat (case_bool_decide; cbn))
          | exfalso;
            first [ by apply (Hdisj A_base); apply list_elem_of_In; cbn; tauto
                  | by apply (Hdisj A_size); apply list_elem_of_In; cbn; tauto
                  | by apply (Hdisj A_milk); apply list_elem_of_In; cbn; tauto
                  | by apply (Hdisj A_syrups); apply list_elem_of_In; cbn; tauto
                  | by apply (Hdisj A_sugar); apply list_elem_of_In; cbn; tauto
                  | by apply (Hdisj A_iced); apply list_elem_of_In; cbn; tauto ] ].
Qed.

Lemma perform_commute_witness :
  after [Set_milk "oat"; Set_base "mocha"]
    (mkBuilder (Some "latte") None "none" ["mint"] 0 false)
  = after [Set_base "mocha"; Set_milk "oat"]
      (mkBuilder (Some "latte") None "none" ["mint"] 0 false).
Proof.
  apply (perform_commute (Set_milk "oat") (Set_base "mocha")).
  cbn. set_solver.
Defined.

(** ** Substrings *)

Lemma append_cons c (s t : string) : String c s +:+ t = String c (s +:+ t).
Proof. reflexivity. Qed.

Lemma append_assoc (s t u : string) : (s +:+ t) +:+ u = s +:+ t +:+ u.
Proof.
  induction s as [|c s IH]; [done|]. by rewrite !append_cons, IH.
Qed.

Lemma str_contains_unfold sub s :
  str_contains sub s =
  String.prefix sub s ||
  match s with EmptyString => false | String _ s' => str_contains sub s' end.
Proof. by destruct s. Qed.

Lemma prefix_app sub q : String.prefix sub (sub +:+ q) = true.
Proof.
  induction sub as [|c sub IH]; [by destruct q|].
  rewrite append_cons. cbn [String.prefix].
  by destruct (Ascii.ascii_dec c c).
Qed.

Lemma prefix_split sub s :
  String.prefix sub s = true → ∃ q, s = sub +:+ q.
Proof.
  revert s. induction sub as [|c sub IH]; intros s Hp; [by exists s|].
  destruct s as [|c' s]; [done|]. cbn [String.prefix] in Hp.
  destruct (Ascii.ascii_dec c c') as [<-|]; [|done].
  destruct (IH s Hp) as [q ->]. by exists q.
Qed.

(** [str_contains sub s] holds exactly when [sub] occurs in [s]. *)
Lemma str_contains_spec sub s :
  str_contains sub s = true ↔ ∃ p q, s = p +:+ sub +:+ q.
Proof.
  split.
  - induction s as [|c s IH]; rewrite str_contains_unfold.
    + rewrite orb_false_r. intros [q ->]%prefix_split. by exists "", q.
    + intros [[q ->]%prefix_split|Hs]%orb_true_iff; [by exists "", q|].
      destruct (IH Hs) as (p & q & ->). by exists (String c p), q.
  - intros (p & q & ->). induction p as [|c p IH].
    + rewrite str_contains_unfold. change ("" +:+ sub +:+ q) with (sub +:+ q).
      by rewrite prefix_app.
    + rewrite append_cons. cbn [str_contains]. rewrite IH. apply orb_true_r.
Qed.

Lemma str_contains_trans a b c :
  str_contains a b = true → str_contains b c = true → str_contains a c = true.
Proof.
  rewrite !str_contains_spec. intros (p & q & ->) (p' & q' & ->).
  exists (p' +:+ p), (q +:+ q'). by rewrite !append_assoc.
Qed.

Lemma join_contains sep p parts :
  p ∈ parts → str_contains p (join sep parts) = true.
Proof.
  induction parts as [|x parts IH]; [by intros ?%elem_of_nil|].
  intros [->|Hin]%elem_of_cons.
  - apply str_contains_spec. destruct parts as [|y parts].
    + exists "", "". cbn [join]. by rewrite append_empty_r.
    + by exists "", (sep +:+ join sep (y :: parts)).
  - destruct parts as [|y parts]; [by apply elem_of_nil in Hin|].
    apply str_contains_spec.
    apply IH, str_contains_spec in Hin as (p' & q' & Hj).
    exists (x +:+ sep +:+ p'), q'.
    change (join sep (x :: y :: parts)) with (x +:+ sep +:+ join sep (y :: parts)).
    by rewrite Hj, !append_assoc.
Qed.

Lemma join_prefix sep x parts :
  ∃ q, join sep (x :: parts) = x +:+ q.
Proof.
  destruct parts as [|y parts].
  - exists "". cbn [join]. by rewrite append_empty_r.
  - by exists (sep +:+ join sep (y :: parts)).
Qed.

Lemma plus_join_contains name (l : list string) :
  name ∈ l → str_contains ("+" +:+ name) ("+" +:+ join "+" l) = true.
Proof.
  induction l as [|x l IH]; [by intros ?%elem_of_nil|].
  intros [->|Hin]%elem_of_cons; apply str_contains_spec.
  - destruct (join_prefix "+" x l) as [q ->]. exists "", q.
    change ("" +:+ ("+" +:+ x) +:+ q) with (("+" +:+ x) +:+ q).
    by rewrite append_assoc.
  - destruct l as [|y l]; [by apply elem_of_nil in Hin|].
    apply IH, str_contains_spec in Hin as (p & q & Hj).
    exists ("+" +:+ x +:+ p), q.
    change (join "+" (x :: y :: l)) with (x +:+ "+" +:+ join "+" (y :: l)).
    by rewrite Hj, !append_assoc.
Qed.

Lemma description_of_parts s b m l i n :
  ∃ rest, description_of s b m l i n = join " " ((s +:+ " " +:+ b) :: rest) ∧
    (m ≠ "none" → "with " +:+ m +:+ " milk" ∈ rest) ∧
    (l ≠ [] → "+" +:+ join "+" l ∈ rest) ∧
    (i = true → "(iced)" ∈ rest) ∧
    ((0 < n)%Z → str_int n +:+ " tsp sugar" ∈ rest).
Proof.
  unfold description_of. rewrite <- !app_assoc. eexists. split; [reflexivity|].
  repeat split.
  - intros Hm. rewrite bool_decide_eq_true_2 by done. set_solver.
  - intros Hl. destruct l as [|x l]; [done|]. set_solver.
  - intros ->. set_solver.
  - intros Hn. rewrite (proj2 (Z.ltb_lt 0 n) Hn). set_solver.
Qed.

Lemma description_of_nonempty s b m l i n : description_of s b m l i n ≠ "".
Proof.
  destruct (description_of_parts s b m l i n) as (rest & -> & _).
  destruct (join_prefix " " (s +:+ " " +:+ b) rest) as [q ->].
  rewrite !append_assoc. by destruct s.
Qed.

(** ** The description and the rendering of an order *)

(** X6.  The description of an order that [build] returns starts with
    "{size} {base}" and mentions every option chosen: "with {milk} milk"
    when the milk is not none, "+{name}" for every syrup, "(iced)" when
    iced and "{sugar} tsp sugar" when the sugar is positive. *)
Theorem description_mentions self order self' :
  build self = (Return order, self') →
  String.prefix (size order +:+ " " +:+ base order) (description order) = true ∧
  (milk order ≠ "none" →
   str_contains ("with " +:+ milk order +:+ " milk") (description order) = true) ∧
  (∀ name, name ∈ syrups order →
   str_contains ("+" +:+ name) (description order) = true) ∧
  (iced order = true → str_contains "(iced)" (description order) = true) ∧
  ((0 < sugar order)%Z →
   str_contains (pretty (sugar order) +:+ " tsp sugar") (description order) = true).
Proof.
  intros (b & s & bp & sm & mp & _ & _ & _ & _ & _ & _ & _ & _ & ->)%build_returns_inv.
  cbn [size base milk syrups iced sugar description].
  destruct (description_of_parts s b (_milk self) (_syrups self) (_iced self)
              (_sugar self)) as (rest & -> & Hm & Hl & Hi & Hn).
  split; [|repeat split].
  - destruct (join_prefix " " (s +:+ " " +:+ b) rest) as [q ->]. apply prefix_app.
  - intros Hmilk. apply join_contains. set_solver.
  - intros name Hin.
    apply (str_contains_trans _ ("+" +:+ join "+" (_syrups self))).
    + by apply plus_join_contains.
    + apply join_contains. apply elem_of_cons. right. apply Hl.
      by intros Hnil; rewrite Hnil in Hin; apply elem_of_nil in Hin.
  - intros Hiced. apply join_contains. set_solver.
  - intros Hsugar. apply join_contains. set_solver.
Qed.

Lemma description_mentions_witness :
  String.prefix "large cappuccino"
    "large cappuccino with oat milk +vanilla+caramel (iced) 2 tsp sugar" = true ∧
  str_contains "+caramel"
    "large cappuccino with oat milk +vanilla+caramel (iced) 2 tsp sugar" = true.
Proof.
  destruct (description_mentions
              (mkBuilder (Some "cappuccino") (Some "large") "oat"
                 ["vanilla"; "caramel"] 2 true)
              (mkOrder "cappuccino" "large" "oat" ["vanilla"; "caramel"] 2 true
                 588.2%float
                 "large cappuccino with oat milk +vanilla+caramel (iced) 2 tsp sugar")
              (mkBuilder (Some "cappuccino") (Some "large") "oat"
                 ["vanilla"; "caramel"] 2 true))
    as (Hprefix & _ & Hsyrup & _).
  - vm_compute. reflexivity.
  - split; [exact Hprefix|]. apply (Hsyrup "caramel"). cbn. set_solver.
Defined.

(** X7.  For an order that [build] returns, [str(order)] is its
    description: the description is never empty, so the price line of
    [__str__] is not used. *)
Theorem str_of_built_order self order self' :
  build self = (Return order, self') →
  description order ≠ "" ∧ __str__ order = description order.
Proof.
  intros (b & s & bp & sm & mp & _ & _ & _ & _ & _ & _ & _ & _ & ->)%build_returns_inv.
  unfold __str__. cbn [description].
  pose proof (description_of_nonempty s b (_milk self) (_syrups self)
                (_iced self) (_sugar self)) as Hne.
  split; [done|]. by rewrite bool_decide_eq_true_2.
Qed.

Lemma str_of_built_order_witness :
  __str__ (mkOrder "latte" "medium" "none" [] 0 false 360.0%float "medium latte")
  = "medium latte".
Proof.
  apply (str_of_built_order
           (mkBuilder (Some "latte") (Some "medium") "none" [] 0 false)
           (mkOrder "latte" "medium" "none" [] 0 false 360.0%float "medium latte")
           (mkBuilder (Some "latte") (Some "medium") "none" [] 0 false)).
  vm_compute. reflexivity.
Defined.

(** X8.  [_build_description] never raises and never changes the builder;
    the string it returns is empty exactly when base or size is unset. *)
Theorem build_description_empty_iff self :
  ∃ d, _build_description self = (Return d, self) ∧
       (d = "" ↔ _base self = None ∨ _size self = None).
Proof.
  destruct (_base self) as [b|] eqn:Hb; [destruct (_size self) as [s|] eqn:Hs|].
  - eexists. split; [by apply build_description_closed_form|].
    split; [|by intros [|]].
    intros Hd. by apply description_of_nonempty in Hd.
  - exists "". unfold _build_description. unfold_M. rewrite Hb, Hs.
    split; [done|]. split; auto.
  - exists "". unfold _build_description. unfold_M. rewrite Hb.
    split; [done|]. split; auto.
Qed.

(** ** Error messages *)

Lemma repr_set_contains (S : gset string) a :
  a ∈ S → str_contains ("'" +:+ a +:+ "'") (repr_set S) = true.
Proof.
  intros Ha. unfold repr_set.
  apply (str_contains_trans _ (join ", " ((λ x, "'" +:+ x +:+ "'") <$> elements S))).
  - apply join_contains. apply list_elem_of_fmap. exists a. split; [done|].
    by apply elem_of_elements.
  - apply str_contains_spec. by exists "{", "}".
Qed.

Lemma message_names_value pre v mid (S : gset string) a :
  a ∈ S →
  str_contains v (pre +:+ v +:+ mid +:+ repr_set S) = true ∧
  str_contains ("'" +:+ a +:+ "'") (pre +:+ v +:+ mid +:+ repr_set S) = true.
Proof.
  intros Ha. split.
  - apply str_contains_spec. by exists pre, (mid +:+ repr_set S).
  - apply (str_contains_trans _ (repr_set S)); [by apply repr_set_contains|].
    apply str_contains_spec. exists (pre +:+ v +:+ mid), "".
    by rewrite append_empty_r, !append_assoc.
Qed.

(** X9.  [set_base], [set_size] and [set_milk] with a name outside their
    set raise a [ValueError] whose message contains the rejected name and,
    in quotes, every name of the set; the builder is left as it was. *)
Theorem setter_error_message v self :
  (v ∉ VALID_BASES →
   ∃ msg, set_base v self = (Raise (ValueError msg), self) ∧
     str_contains v msg = true ∧
     ∀ a, a ∈ VALID_BASES → str_contains ("'" +:+ a +:+ "'") msg = true) ∧
  (v ∉ VALID_SIZES →
   ∃ msg, set_size v self = (Raise (ValueError msg), self) ∧
     str_contains v msg = true ∧
     ∀ a, a ∈ VALID_SIZES → str_contains ("'" +:+ a +:+ "'") msg = true) ∧
  (v ∉ VALID_MILKS →
   ∃ msg, set_milk v self = (Raise (ValueError msg), self) ∧
     str_contains v msg = true ∧
     ∀ a, a ∈ VALID_MILKS → str_contains ("'" +:+ a +:+ "'") msg = true).
Proof.
  assert (Hespresso : "espresso" ∈ VALID_BASES) by (apply VALID_BASES_elem; auto).
  assert (Hsmall : "small" ∈ VALID_SIZES) by (apply VALID_SIZES_elem; auto).
  assert (Hnone : "none" ∈ VALID_MILKS) by (apply VALID_MILKS_elem; auto).
  split; [|split]; intros Hv; eexists.
  - rewrite set_base_cases, bool_decide_eq_false_2 by done.
    split; [reflexivity|]. split.
    + by apply (message_names_value _ _ _ _ "espresso").
    + intros a Ha. by apply message_names_value.
  - rewrite set_size_cases, bool_decide_eq_false_2 by done.
    split; [reflexivity|]. split.
    + by apply (message_names_value _ _ _ _ "small").
    + intros a Ha. by apply message_names_value.
  - rewrite set_milk_cases, bool_decide_eq_false_2 by done.
    split; [reflexivity|]. split.
    + by apply (message_names_value _ _ _ _ "none").
    + intros a Ha. by apply message_names_value.
Qed.

Lemma setter_error_message_witness :
  ∃ msg,
    set_base "mocha" (mkBuilder None None "none" [] 0 false)
    = (Raise (ValueError msg), mkBuilder None None "none" [] 0 false) ∧
    str_contains "mocha" msg = true ∧
    ∀ a, a ∈ VALID_BASES → str_contains ("'" +:+ a +:+ "'") msg = true.
Proof.
  apply (proj1 (setter_error_message "mocha"
                  (mkBuilder None None "none" [] 0 false))).
  apply (bool_decide_unpack _). vm_compute. exact I.
Defined.

(** X10.  [_calculate_price] raises its own error, "base and size must be
    set before calculating price", exactly when base or size is unset, and
    it never changes the builder; [build] tests both fields first and so
    never raises that error. *)
Theorem calculate_price_guard self :
  (fst (_calculate_price self)
   = Raise (ValueError "base and size must be set before calculating price")
   ↔ _base self = None ∨ _size self = None) ∧
  snd (_calculate_price self) = self ∧
  fst (build self)
  ≠ Raise (ValueError "base and size must be set before calculating price").
Proof.
  split; [|split].
  - unfold _calculate_price. unfold_M.
    destruct (_base self) as [b|]; [destruct (_size self) as [s|]|];
      [|cbn; split; auto..].
    split; [|by intros [|]].
    destruct (BASE_PRICES !! b); [|done].
    destruct (SIZE_MULTIPLIERS !! s); [|done].
    by destruct (MILK_PRICES !! _milk self).
  - unfold _calculate_price. unfold_M.
    destruct (_base self) as [b|]; [destruct (_size self) as [s|]|]; [|done..].
    destruct (BASE_PRICES !! b); [|done].
    destruct (SIZE_MULTIPLIERS !! s); [|done].
    by destruct (MILK_PRICES !! _milk self).
  - rewrite build_cases.
    repeat match goal with
           | |- context [match ?x with _ => _ end] => destruct x
           end; done.
Qed.

(** ** Syrups *)

Lemma effect_syrups_prefix c self :
  c ≠ Clear_extras → _syrups self `prefix_of` _syrups (effect c self).
Proof.
  intros Hc. destruct c as [v|v|v|v|v|v| |]; cbn [effect]; try done;
    repeat case_bool_decide; cbn [_syrups]; try done.
  by apply prefix_app_r.
Qed.

(** X11.  No call but [clear_extras] removes or reorders a syrup: after any
    sequence of other calls the syrups held before are a prefix of the
    syrups held after. *)
Theorem syrups_only_grow cs self :
  Clear_extras ∉ cs → _syrups self `prefix_of` _syrups (after cs self).
Proof.
  revert self. induction cs as [|c cs IH]; intros self Hcs; [done|].
  apply not_elem_of_cons in Hcs as [Hc Hcs].
  change (after (c :: cs) self) with (after cs (snd (perform c self))).
  rewrite perform_effect. etrans; [by apply effect_syrups_prefix|by apply IH].
Qed.

Lemma syrups_only_grow_witness :
  ["vanilla"] `prefix_of`
  _syrups (after [Add_syrup "mint"; Set_milk "oat"; Add_syrup "vanilla"; Build]
             (mkBuilder (Some "latte") (Some "small") "none" ["vanilla"] 0 false)).
Proof.
  apply (syrups_only_grow
           [Add_syrup "mint"; Set_milk "oat"; Add_syrup "vanilla"; Build]
           (mkBuilder (Some "latte") (Some "small") "none" ["vanilla"] 0 false)).
  intros Hin. repeat (apply elem_of_cons in Hin as [Hin|Hin]; [discriminate|]).
  by apply elem_of_nil in Hin.
Defined.

(** X12.  A loop that adds pairwise distinct new names one by one (lines
    247-248) returns when the builder ends with at most four syrups, which
    are then the old ones followed by the new ones in order; otherwise it
    stops with the error of [add_syrup] at the first name that does not
    fit, the builder holding the first four. *)
Theorem add_syrup_loop names self :
  NoDup (_syrups self ++ names) → (length (_syrups self) ≤ 4)%nat →
  for_each add_syrup names self =
  if bool_decide (length (_syrups self ++ names) ≤ 4)%nat
  then (Return tt,
        mkBuilder (_base self) (_size self) (_milk self)
          (_syrups self ++ names) (_sugar self) (_iced self))
  else (Raise (ValueError "cannot add more than 4 syrups"),
        mkBuilder (_base self) (_size self) (_milk self)
          (take 4 (_syrups self ++ names)) (_sugar self) (_iced self)).
Proof.
  revert self. induction names as [|name names IH]; intros self Hnd Hlen.
  - rewrite app_nil_r. rewrite bool_decide_eq_true_2 by done. by destruct self.
  - cbn [for_each]. unfold mbind, M_bind, bind. rewrite add_syrup_cases.
    case_bool_decide as Hlt.
    + cbn [effect]. rewrite bool_decide_eq_true_2 by done.
      rewrite bool_decide_eq_false_2
        by (apply NoDup_app in Hnd as (_ & Hnd & _); intros Hin;
            apply (Hnd name Hin); left).
      rewrite IH; cbn [_base _size _milk _syrups _sugar _iced].
      * by rewrite <- !app_assoc.
      * by rewrite <- app_assoc.
      * rewrite length_app. cbn. lia.
    + rewrite bool_decide_eq_false_2 by (rewrite length_app; cbn; lia).
      rewrite take_app_le by lia. rewrite take_ge by lia. by destruct self.
Qed.

Lemma add_syrup_loop_witness :
  for_each add_syrup ["syrup0"; "syrup1"; "syrup2"; "syrup3"; "syrup4"]
    (mkBuilder (Some "latte") (Some "medium") "none" [] 0 false)
  = (Raise (ValueError "cannot add more than 4 syrups"),
     mkBuilder (Some "latte") (Some "medium") "none"
       ["syrup0"; "syrup1"; "syrup2"; "syrup3"] 0 false).
Proof.
  apply (add_syrup_loop ["syrup0"; "syrup1"; "syrup2"; "syrup3"; "syrup4"]
           (mkBuilder (Some "latte") (Some "medium") "none" [] 0 false)).
  - apply (bool_decide_unpack _). vm_compute. exact I.
  - cbn. lia.
Defined.

(** ** What [build] returns *)

(** X13.  On a reachable builder [build] has three outcomes only: the error
    "base is required" when no base is set, the error "size is required"
    when a base but no size is set, and an order of that base and size, with
    pairwise distinct syrups, as soon as both are set; no [KeyError] and no
    other check can stop it. *)
Theorem reachable_build_outcome self :
  reachable self →
  match _base self, _size self with
  | None, _ => build self = (Raise (ValueError "base is required"), self)
  | Some _, None => build self = (Raise (ValueError "size is required"), self)
  | Some b, Some s =>
      ∃ order,
        build self = (Return order, self) ∧ base order = b ∧ size order = s ∧
        NoDup (syrups order)
  end.
Proof.
  intros Hr.
  destruct (_base self) as [b|] eqn:Hb; [destruct (_size self) as [s|] eqn:Hs|].
  - destruct (reachable_buildable self b s Hr Hb Hs) as [Hbuildable Hnd].
    destruct (buildable_returns self Hbuildable) as [order Horder].
    exists order. split; [done|].
    apply build_returns_inv in Horder
      as (b' & s' & bp & sm & mp & Hb' & Hs' & _ & _ & _ & _ & _ & _ & ->).
    cbn. split; [congruence|]. split; [congruence|done].
  - by rewrite build_cases, Hb, Hs.
  - by rewrite build_cases, Hb.
Qed.

Lemma reachable_build_outcome_witness :
  ∃ order,
    build (after [Set_size "large"; Set_base "mocha"; Set_base "latte";
                  Set_milk "soy"] new_builder)
    = (Return order,
       after [Set_size "large"; Set_base "mocha"; Set_base "latte";
              Set_milk "soy"] new_builder) ∧
    base order = "latte" ∧ size order = "large" ∧ NoDup (syrups order).
Proof.
  apply (reachable_build_outcome
           (after [Set_size "large"; Set_base "mocha"; Set_base "latte";
                   Set_milk "soy"] new_builder)).
  apply reachable_after, reachable_new.
Defined.

(** X14.  Whatever the builder, an order that [build] returns carries the
    builder's six attributes, the builder is left as it was, and the order
    is within the data model: a base, a size and a milk of the three sets,
    at most four syrups and a sugar count from 0 to 5. *)
Theorem built_order_valid self order self' :
  build self = (Return order, self') →
  self' = self ∧
  _base self = Some (base order) ∧ _size self = Some (size order) ∧
  milk order = _milk self ∧ syrups order = _syrups self ∧
  sugar order = _sugar self ∧ iced order = _iced self ∧
  base order ∈ VALID_BASES ∧ size order ∈ VALID_SIZES ∧
  milk order ∈ VALID_MILKS ∧
  (length (syrups order) ≤ 4)%nat ∧ (0 ≤ sugar order ≤ 5)%Z.
Proof.
  intros Hbuild.
  destruct (build_returns_buildable _ _ _ Hbuild)
    as ((b0 & Hb0 & Hvb) & (s0 & Hs0 & Hvs) & Hvm & _).
  apply build_returns_inv in Hbuild
    as (b & s & bp & sm & mp & Hb & Hs & _ & _ & _ & Hlen & Hsugar & -> & ->).
  cbn. rewrite Hb in Hb0. rewrite Hs in Hs0.
  injection Hb0 as <-. injection Hs0 as <-. repeat split; (done || lia).
Qed.

Lemma built_order_valid_witness :
  "americano" ∈ VALID_BASES ∧ "small" ∈ VALID_SIZES.
Proof.
  destruct (built_order_valid
              (mkBuilder (Some "americano") (Some "small") "none" [] 1 false)
              (mkOrder "americano" "small" "none" [] 1 false 250.0%float
                 "small americano 1 tsp sugar")
              (mkBuilder (Some "americano") (Some "small") "none" [] 1 false))
    as (_ & _ & _ & _ & _ & _ & _ & Hb & Hs & _).
  - vm_compute. reflexivity.
  - split; [exact Hb|exact Hs].
Defined.

(** ** Prices *)

Lemma price_of_bounds b s m bp sm mp n i :
  BASE_PRICES !! b = Some bp → SIZE_MULTIPLIERS !! s = Some sm →
  MILK_PRICES !! m = Some mp → (n ≤ 4)%nat →
  PrimFloat.ltb 0 (price_of bp sm mp n i) = true ∧
  PrimFloat.leb 200.0 (price_of bp sm mp n i) = true ∧
  PrimFloat.leb (price_of bp sm mp n i) 668.2 = true.
Proof.
  intros Hbp Hsm Hmp Hn.
  price_cases Hbp Hsm Hmp Hn; destruct i; vm_compute; repeat split; reflexivity.
Qed.

(** X15.  The price of every order that [build] returns lies between 200.0
    (a small espresso) and 668.2 (a large iced cappuccino with oat milk and
    four syrups); in particular it is positive. *)
Theorem built_price_bounds self order self' :
  build self = (Return order, self') →
  PrimFloat.ltb 0 (price order) = true ∧
  PrimFloat.leb 200.0 (price order) = true ∧
  PrimFloat.leb (price order) 668.2 = true.
Proof.
  intros (b & s & bp & sm & mp & _ & _ & Hbp & Hsm & Hmp & Hlen & _ & _ & ->)
    %build_returns_inv.
  cbn [price]. by apply (price_of_bounds b s (_milk self)).
Qed.

Lemma built_price_bounds_witness :
  PrimFloat.ltb 0 400.0 = true ∧
  PrimFloat.leb 200.0 400.0 = true ∧ PrimFloat.leb 400.0 668.2 = true.
Proof.
  apply (built_price_bounds
           (mkBuilder (Some "latte") (Some "medium") "none" ["vanilla"] 0 false)
           (mkOrder "latte" "medium" "none" ["vanilla"] 0 false 400.0%float
              "medium latte +vanilla")
           (mkBuilder (Some "latte") (Some "medium") "none" ["vanilla"] 0 false)).
  vm_compute. reflexivity.
Defined.

(** X16.  The price depends on the base, the size, the milk, the number of
    syrups and the ice only: two builders that agree on these build orders
    of the same price, whatever their sugar and whatever the names of their
    syrups. *)
Theorem price_ignores_sugar_and_names self1 self2 o1 o2 self1' self2' :
  build self1 = (Return o1, self1') → build self2 = (Return o2, self2') →
  _base self1 = _base self2 → _size self1 = _size self2 →
  _milk self1 = _milk self2 →
  length (_syrups self1) = length (_syrups self2) →
  _iced self1 = _iced self2 →
  price o1 = price o2.
Proof.
  intros (b1 & s1 & bp1 & sm1 & mp1 & Hb1 & Hs1 & Hbp1 & Hsm1 & Hmp1 & _ & _ & _ & ->)
    %build_returns_inv
    (b2 & s2 & bp2 & sm2 & mp2 & Hb2 & Hs2 & Hbp2 & Hsm2 & Hmp2 & _ & _ & _ & ->)
    %build_returns_inv Hb Hs Hm Hl Hi.
  cbn [price]. rewrite Hl, Hi.
  assert (b1 = b2) as -> by congruence. assert (s1 = s2) as -> by congruence.
  rewrite Hm in Hmp1. congruence.
Qed.

Lemma price_ignores_sugar_and_names_witness :
  price (mkOrder "latte" "small" "soy" ["mint"] 0 false 390.0%float
           "small latte with soy milk +mint")
  = price (mkOrder "latte" "small" "soy" ["rose"] 5 false 390.0%float
             "small latte with soy milk +rose 5 tsp sugar").
Proof.
  apply (price_ignores_sugar_and_names
           (mkBuilder (Some "latte") (Some "small") "soy" ["mint"] 0 false)
           (mkBuilder (Some "latte") (Some "small") "soy" ["rose"] 5 false)
           _ _
           (mkBuilder (Some "latte") (Some "small") "soy" ["mint"] 0 false)
           (mkBuilder (Some "latte") (Some "small") "soy" ["rose"] 5 false));
    vm_compute; reflexivity.
Defined.

Lemma price_of_syrup_step b s m bp sm mp n :
  BASE_PRICES !! b = Some bp → SIZE_MULTIPLIERS !! s = Some sm →
  MILK_PRICES !! m = Some mp → (n ≤ 4)%nat →
  (price_of bp sm mp (S n) false - price_of bp sm mp n false)%float = SYRUP_PRICE.
Proof.
  intros Hbp Hsm Hmp Hn.
  price_cases Hbp Hsm Hmp Hn; vm_compute; reflexivity.
Qed.

(** X17.  Without ice one more syrup costs exactly [SYRUP_PRICE]: on a
    builder that is not iced, builds, and holds fewer than four syrups,
    adding a new name and building again gives an order with that name last
    and a price higher by exactly 40.0. *)
Theorem extra_syrup_costs_forty self name o1 self1 :
  build self = (Return o1, self1) → _iced self = false →
  (length (_syrups self) < 4)%nat → name ∉ _syrups self →
  ∃ o2 self2,
    (add_syrup name;; build) self = (Return o2, self2) ∧
    syrups o2 = syrups o1 ++ [name] ∧
    (price o2 - price o1)%float = SYRUP_PRICE.
Proof.
  intros (b & s & bp & sm & mp & Hb & Hs & Hbp & Hsm & Hmp & _ & Hsugar & _ & ->)
    %build_returns_inv Hi Hlen Hnin.
  unfold mbind, M_bind, bind. rewrite add_syrup_new by done.
  rewrite (build_closed_form _ b s bp sm mp)
    by (cbn; try done; rewrite length_app; cbn; lia).
  do 2 eexists. split; [reflexivity|]. cbn. split; [done|].
  rewrite Hi, length_app. cbn [length]. rewrite Nat.add_1_r.
  apply (price_of_syrup_step b s (_milk self)); (done || lia).
Qed.

Lemma extra_syrup_costs_forty_witness :
  ∃ o2 self2,
    (add_syrup "mint";; build)
      (mkBuilder (Some "latte") (Some "large") "oat" ["vanilla"] 2 false)
    = (Return o2, self2) ∧
    syrups o2 = ["vanilla"] ++ ["mint"] ∧
    (price o2 - 520.0)%float = SYRUP_PRICE.
Proof.
  apply (extra_syrup_costs_forty
           (mkBuilder (Some "latte") (Some "large") "oat" ["vanilla"] 2 false)
           "mint"
           (mkOrder "latte" "large" "oat" ["vanilla"] 2 false 520.0%float
              "large latte with oat milk +vanilla 2 tsp sugar")
           (mkBuilder (Some "latte") (Some "large") "oat" ["vanilla"] 2 false)).
  - vm_compute. reflexivity.
  - reflexivity.
  - cbn. lia.
  - apply (bool_decide_unpack _). vm_compute. exact I.
Defined.

Lemma price_of_iced_close b s m bp sm mp n :
  BASE_PRICES !! b = Some bp → SIZE_MULTIPLIERS !! s = Some sm →
  MILK_PRICES !! m = Some mp → (n ≤ 4)%nat →
  PrimFloat.ltb (price_of bp sm mp n false) (price_of bp sm mp n true) = true ∧
  PrimFloat.ltb
    (PrimFloat.abs (price_of bp sm mp n true - price_of bp sm mp n false - 0.2))
    1e-13 = true.
Proof.
  intros Hbp Hsm Hmp Hn.
  price_cases Hbp Hsm Hmp Hn; vm_compute; split; reflexivity.
Qed.

(** X18.  Ice always makes an order dearer, by 0.2 up to rounding: on a
    builder that is not iced and builds, [set_iced(True)] followed by
    [build] gives a strictly higher price, and the difference is within
    1e-13 of 0.2. *)
Theorem iced_surcharge_close self o1 self1 :
  build self = (Return o1, self1) → _iced self = false →
  ∃ o2 self2,
    (set_iced true;; build) self = (Return o2, self2) ∧
    PrimFloat.ltb (price o1) (price o2) = true ∧
    PrimFloat.ltb (PrimFloat.abs (price o2 - price o1 - 0.2)) 1e-13 = true.
Proof.
  intros (b & s & bp & sm & mp & Hb & Hs & Hbp & Hsm & Hmp & Hlen & Hsugar & _ & ->)
    %build_returns_inv Hi.
  change ((set_iced true;; build) self)
    with (build (mkBuilder (_base self) (_size self) (_milk self)
                   (_syrups self) (_sugar self) true)).
  rewrite (build_closed_form _ b s bp sm mp) by done.
  do 2 eexists. split; [reflexivity|]. cbn. rewrite Hi.
  by apply (price_of_iced_close b s (_milk self)).
Qed.

Lemma iced_surcharge_close_witness :
  ∃ o2 self2,
    (set_iced true;; build)
      (mkBuilder (Some "americano") (Some "small") "none" [] 0 false)
    = (Return o2, self2) ∧
    PrimFloat.ltb 250.0 (price o2) = true ∧
    PrimFloat.ltb (PrimFloat.abs (price o2 - 250.0 - 0.2)) 1e-13 = true.
Proof.
  apply (iced_surcharge_close
           (mkBuilder (Some "americano") (Some "small") "none" [] 0 false)
           (mkOrder "americano" "small" "none" [] 0 false 250.0%float
              "small americano")
           (mkBuilder (Some "americano") (Some "small") "none" [] 0 false)).
  - vm_compute. reflexivity.
  - reflexivity.
Defined.

(** ** Reusing a builder *)

(** X19.  [build] resets nothing: after an order has been built, setting a
    new base and a new size and building again gives an order of the new
    base and size with the milk, syrups, sugar and ice of the first. *)
Theorem extras_persist_across_builds self o1 self1 b s :
  build self = (Return o1, self1) → b ∈ VALID_BASES → s ∈ VALID_SIZES →
  ∃ o2 self2,
    (build;; set_base b;; set_size s;; build) self = (Return o2, self2) ∧
    base o2 = b ∧ size o2 = s ∧ milk o2 = milk o1 ∧ syrups o2 = syrups o1 ∧
    sugar o2 = sugar o1 ∧ iced o2 = iced o1.
Proof.
  intros Hbuild Hvb Hvs.
  pose proof Hbuild as
    (b1 & s1 & bp1 & sm1 & mp & _ & _ & _ & _ & Hmp & Hlen & Hsugar & -> & ->)
    %build_returns_inv.
  destruct (BASE_PRICES_valid b Hvb) as [bp Hbp].
  destruct (SIZE_MULTIPLIERS_valid s Hvs) as [sm Hsm].
  unfold mbind, M_bind, bind. rewrite Hbuild.
  rewrite set_base_cases, bool_decide_eq_true_2 by done.
  rewrite set_size_cases, bool_decide_eq_true_2 by done.
  rewrite (build_closed_form _ b s bp sm mp) by done.
  do 2 eexists. split; [reflexivity|]. by cbn.
Qed.

Lemma extras_persist_across_builds_witness :
  ∃ o2 self2,
    (build;; set_base "americano";; set_size "small";; build)
      (mkBuilder (Some "cappuccino") (Some "large") "oat"
         ["vanilla"; "caramel"] 2 true)
    = (Return o2, self2) ∧
    base o2 = "americano" ∧ size o2 = "small" ∧ milk o2 = "oat" ∧
    syrups o2 = ["vanilla"; "caramel"] ∧ sugar o2 = 2%Z ∧ iced o2 = true.
Proof.
  apply (extras_persist_across_builds
           (mkBuilder (Some "cappuccino") (Some "large") "oat"
              ["vanilla"; "caramel"] 2 true)
           (mkOrder "cappuccino" "large" "oat" ["vanilla"; "caramel"] 2 true
              588.2%float
              "large cappuccino with oat milk +vanilla+caramel (iced) 2 tsp sugar")
           (mkBuilder (Some "cappuccino") (Some "large") "oat"
              ["vanilla"; "caramel"] 2 true)
           "americano" "small"); vm_compute; reflexivity.
Defined.

(** X20.  After [clear_extras] and a new base and size, a used builder is
    indistinguishable from a new one given the same base and size: whatever
    calls follow, both end in the same builder. *)
Theorem clear_extras_like_new self b s cs :
  b ∈ VALID_BASES → s ∈ VALID_SIZES →
  after (Clear_extras :: Set_base b :: Set_size s :: cs) self
  = after (Set_base b :: Set_size s :: cs) new_builder.
Proof.
  intros Hvb Hvs. unfold after. cbn [foldl]. rewrite !perform_effect.
  cbn [effect _base _size _milk _syrups _sugar _iced].
  rewrite !(bool_decide_eq_true_2 _ Hvb), !(bool_decide_eq_true_2 _ Hvs).
  by rewrite new_builder_fields.
Qed.

Lemma clear_extras_like_new_witness :
  after [Clear_extras; Set_base "espresso"; Set_size "small"; Add_syrup "mint"]
    (mkBuilder (Some "latte") (Some "medium") "soy" ["chocolate"] 3 true)
  = after [Set_base "espresso"; Set_size "small"; Add_syrup "mint"] new_builder.
Proof.
  apply (clear_extras_like_new
           (mkBuilder (Some "latte") (Some "medium") "soy" ["chocolate"] 3 true)
           "espresso" "small" [Add_syrup "mint"]); vm_compute; reflexivity.
Defined.

(** ** What a returning call stores *)

(** X21.  A call that returns has stored its argument: the base, size,
    milk, sugar or ice flag is the one given; after [add_syrup] the name is
    among the syrups, appended at the end if it was new and the sequence
    untouched if it was already there; [clear_extras] leaves the four
    defaults; [build] hands back its order and the builder unchanged. *)
Theorem perform_stores c self r :
  fst (perform c self) = Return r →
  let self' := snd (perform c self) in
  match c with
  | Set_base v => _base self' = Some v
  | Set_size v => _size self' = Some v
  | Set_milk v => _milk self' = v
  | Add_syrup name =>
      name ∈ _syrups self' ∧
      (name ∉ _syrups self → _syrups self' = _syrups self ++ [name]) ∧
      (name ∈ _syrups self → _syrups self' = _syrups self)
  | Set_sugar n => _sugar self' = n
  | Set_iced v => _iced self' = v
  | Clear_extras =>
      _milk self' = "none" ∧ _syrups self' = [] ∧ _sugar self' = 0%Z ∧
      _iced self' = false
  | Build => self' = self ∧ ∃ order, r = Some order ∧ build self = (Return order, self)
  end.
Proof.
  intros Hr self'. subst self'. rewrite perform_effect.
  destruct c as [v|v|v|v|v|v| |]; unfold perform, mbind, M_bind, bind in Hr;
    cbn [effect].
  - rewrite set_base_cases in Hr. by case_bool_decide.
  - rewrite set_size_cases in Hr. by case_bool_decide.
  - rewrite set_milk_cases in Hr. by case_bool_decide.
  - rewrite add_syrup_cases in Hr. case_bool_decide as Hlen; [|done].
    case_bool_decide as Hin; cbn [_syrups]; (split; [|split]); try done.
    set_solver.
  - rewrite set_sugar_cases in Hr. by case_bool_decide.
  - done.
  - done.
  - split; [done|].
    pose proof (build_keeps_builder self) as Hk.
    destruct (build self) as [[order|e] self'']; cbn in *; [|done].
    injection Hr as <-. subst. eauto.
Qed.

Lemma perform_stores_witness :
  let self' :=
    snd (perform (Add_syrup "mint")
           (mkBuilder (Some "latte") None "none" ["vanilla"] 0 false)) in
  "mint" ∈ _syrups self' ∧
  ("mint" ∉ ["vanilla"] → _syrups self' = ["vanilla"] ++ ["mint"]) ∧
  ("mint" ∈ ["vanilla"] → _syrups self' = ["vanilla"]).
Proof.
  apply (perform_stores (Add_syrup "mint")
           (mkBuilder (Some "latte") None "none" ["vanilla"] 0 false) None).
  vm_compute. reflexivity.
Defined.

(** ** Orders already handed out *)

(** *** What the store keeps *)

Lemma keeps_refl h : keeps h h.
Proof. intros r [items|order|b] Hr; eauto. Qed.

Lemma keeps_trans h1 h2 h3 : keeps h1 h2 → keeps h2 h3 → keeps h1 h3.
Proof.
  intros H12 H23 r o Hr. specialize (H12 r o Hr).
  destruct o as [items|order|b].
  - apply (H23 r _ H12).
  - apply (H23 r _ H12).
  - destruct H12 as [b' Hb']. apply (H23 r _ Hb').
Qed.

Lemma keeps_alloc (h : list Obj.object) o : keeps h (h ++ [o]).
Proof.
  intros r [items|order|b] Hr.
  - by apply lookup_app_l_Some.
  - by apply lookup_app_l_Some.
  - exists b. by apply lookup_app_l_Some.
Qed.

(** An update of a builder is the one write the store sees, and it leaves
    every tuple and every order alone. *)
Lemma keeps_insert_builder (h : list Obj.object) target b b' :
  h !! target = Some (Obj.Builder b) →
  keeps h (<[target := Obj.Builder b']> h).
Proof.
  intros Ht r o Hr. unfold Obj.loc in *.
  destruct (decide (r = target)) as [Heq|Hne].
  - subst r. rewrite Ht in Hr. injection Hr as <-. exists b'.
    apply list_lookup_insert_eq. by eapply lookup_lt_Some.
  - rewrite list_lookup_insert_ne by done.
    destruct o as [items|order|b0]; eauto.
Qed.

Lemma frame_ret {A} (a : A) : frame (Obj.ret a).
Proof. intros h. apply keeps_refl. Qed.

Lemma frame_mret {A} (a : A) : frame (@mret Obj.M Obj.M_ret A a).
Proof. intros h. apply keeps_refl. Qed.

Lemma frame_raise {A} e : frame (Obj.raise e : Obj.M A).
Proof. intros h. apply keeps_refl. Qed.

Lemma frame_bind {A B} (m : Obj.M A) (k : A → Obj.M B) :
  frame m → (∀ a, frame (k a)) → frame (@mbind Obj.M Obj.M_bind A B k m).
Proof.
  intros Hm Hk h. unfold mbind, Obj.M_bind, Obj.bind.
  specialize (Hm h). destruct (m h) as [[a|e] h']; cbn in *; [|done].
  eapply keeps_trans; [done|apply Hk].
Qed.

Lemma frame_alloc o : frame (Obj.alloc o).
Proof. intros h. apply keeps_alloc. Qed.

Lemma frame_load_builder self : frame (Obj.load_builder self).
Proof.
  intros h. unfold Obj.load_builder.
  destruct (h !! self) as [[items|order|b]|]; apply keeps_refl.
Qed.

Lemma frame_load_tuple r : frame (Obj.load_tuple r).
Proof.
  intros h. unfold Obj.load_tuple.
  destruct (h !! r) as [[items|order|b]|]; apply keeps_refl.
Qed.

(** An assignment writes a builder or nothing: on an order it raises. *)
Lemma frame_setattr target name store : frame (Obj.setattr target name store).
Proof.
  intros h. unfold Obj.setattr.
  destruct (h !! target) as [[items|order|b]|] eqn:Ht; try apply keeps_refl.
  by eapply keeps_insert_builder.
Qed.

Lemma frame_when c e : frame (Obj.when c e).
Proof. destruct c; [apply frame_raise|apply frame_ret]. Qed.

Lemma frame_subscript {V} (d : gmap string V) k : frame (Obj.subscript d k).
Proof.
  unfold Obj.subscript. destruct (d !! k); [apply frame_ret|apply frame_raise].
Qed.

Ltac frame_step :=
  first
    [ apply frame_bind; [|intros ?]
    | apply frame_mret | apply frame_ret | apply frame_raise
    | apply frame_alloc | apply frame_load_builder | apply frame_load_tuple
    | apply frame_setattr | apply frame_when | apply frame_subscript
    | progress cbv zeta
    | match goal with
      | |- frame (match ?x with _ => _ end) => destruct x
      end ].

(** None of the methods writes a tuple or an order: each reads, makes new
    objects, and assigns to attributes of [self]. *)
Lemma frame_perform self c : frame (Obj.perform self c).
Proof.
  destruct c as [v|v|v|v|v|v| |]; unfold Obj.perform.
  - unfold Obj.set_base, Obj.set__base. repeat frame_step.
  - unfold Obj.set_size, Obj.set__size. repeat frame_step.
  - unfold Obj.set_milk, Obj.set__milk. repeat frame_step.
  - unfold Obj.add_syrup, Obj.set__syrups. repeat frame_step.
  - unfold Obj.set_sugar, Obj.set__sugar. repeat frame_step.
  - unfold Obj.set_iced, Obj.set__iced. repeat frame_step.
  - unfold Obj.clear_extras, Obj.set__milk, Obj.set__syrups, Obj.set__sugar,
      Obj.set__iced. repeat frame_step.
  - unfold Obj.build, Obj._calculate_price, Obj._build_description.
    repeat frame_step.
Qed.

Lemma frame_exec act : frame (Obj.exec act).
Proof.
  destruct act as [|self c|target name store]; unfold Obj.exec.
  - unfold Obj.new_builder, Obj.__init__, Obj.clear_extras, Obj.set__milk,
      Obj.set__syrups, Obj.set__sugar, Obj.set__iced, Obj.set__base,
      Obj.set__size. repeat frame_step.
  - apply frame_perform.
  - repeat frame_step.
Qed.

Lemma keeps_run acts h : keeps h (Obj.run acts h).
Proof.
  revert h. induction acts as [|act acts IH]; intros h; [apply keeps_refl|].
  eapply keeps_trans; [apply (frame_exec act h)|apply IH].
Qed.

Lemma view_order_keeps h h' a A :
  keeps h h' → view_order h a = Some A → view_order h' a = Some A.
Proof.
  intros Hk. unfold view_order.
  destruct (h !! a) as [[items|order|b]|] eqn:Ha; try done.
  destruct (h !! Obj.syrups order) as [[items|order'|b]|] eqn:Hs; try done.
  by rewrite (Hk _ _ Ha), (Hk _ _ Hs).
Qed.

(** *** The store against the values *)

Lemma obj_bind_eq {A B} (m : Obj.M A) (k : A → Obj.M B) h :
  @mbind Obj.M Obj.M_bind A B k m h =
  match m h with
  | (Obj.Return a, h') => k a h'
  | (Obj.Raise e, h') => (Obj.Raise e, h')
  end.
Proof. reflexivity. Qed.

Lemma load_builder_eq (h : list Obj.object) self b :
  h !! self = Some (Obj.Builder b) → Obj.load_builder self h = (Obj.Return b, h).
Proof. intros Hs. unfold Obj.load_builder. by rewrite Hs. Qed.

Lemma load_tuple_eq (h : list Obj.object) r items :
  h !! r = Some (Obj.Tuple items) → Obj.load_tuple r h = (Obj.Return items, h).
Proof. intros Hr. unfold Obj.load_tuple. by rewrite Hr. Qed.

Lemma setattr_eq (h : list Obj.object) target name store b :
  h !! target = Some (Obj.Builder b) →
  Obj.setattr target name store h
  = (Obj.Return tt, <[target := Obj.Builder (store b)]> h).
Proof. intros Ht. unfold Obj.setattr. by rewrite Ht. Qed.

Lemma view_builder_inv h self v :
  view_builder h self = Some v →
  ∃ b items,
    h !! self = Some (Obj.Builder b) ∧ h !! Obj._syrups b = Some (Obj.Tuple items) ∧
    v = mkBuilder (Obj._base b) (Obj._size b) (Obj._milk b) items
          (Obj._sugar b) (Obj._iced b).
Proof.
  unfold view_builder.
  destruct (h !! self) as [[items|order|b]|] eqn:Hs; try done.
  destruct (h !! Obj._syrups b) as [[items|order|b']|] eqn:Hr; try done.
  intros [= <-]. by exists b, items.
Qed.

(** An outcome on values as an outcome on the store. *)
Lemma obj_calculate_price_eq (h : list Obj.object) self b items :
  h !! self = Some (Obj.Builder b) → h !! Obj._syrups b = Some (Obj.Tuple items) →
  Obj._calculate_price self h =
  (match fst (_calculate_price
                (mkBuilder (Obj._base b) (Obj._size b) (Obj._milk b) items
                   (Obj._sugar b) (Obj._iced b))) with
   | Return p => Obj.Return p
   | Raise e => Obj.Raise (Obj.Exn e)
   end, h).
Proof.
  intros Hs Hr. unfold Obj._calculate_price, _calculate_price.
  rewrite obj_bind_eq, (load_builder_eq _ _ _ Hs). unfold_M.
  cbn [_base _size _milk _syrups _sugar _iced].
  destruct (Obj._base b) as [bs|]; [|done].
  destruct (Obj._size b) as [sz|]; [|done].
  rewrite obj_bind_eq. unfold Obj.subscript.
  destruct (BASE_PRICES !! bs) as [bp|]; [|done]. cbn.
  rewrite obj_bind_eq.
  destruct (SIZE_MULTIPLIERS !! sz) as [sm|]; [|done]. cbn.
  rewrite obj_bind_eq.
  destruct (MILK_PRICES !! Obj._milk b) as [mp|]; [|done]. cbn.
  rewrite obj_bind_eq, (load_tuple_eq _ _ _ Hr). by destruct (Obj._iced b).
Qed.

Lemma obj_build_description_eq (h : list Obj.object) self b items :
  h !! self = Some (Obj.Builder b) → h !! Obj._syrups b = Some (Obj.Tuple items) →
  Obj._build_description self h =
  (match fst (_build_description
                (mkBuilder (Obj._base b) (Obj._size b) (Obj._milk b) items
                   (Obj._sugar b) (Obj._iced b))) with
   | Return d => Obj.Return d
   | Raise e => Obj.Raise (Obj.Exn e)
   end, h).
Proof.
  intros Hs Hr. unfold Obj._build_description, _build_description.
  rewrite obj_bind_eq, (load_builder_eq _ _ _ Hs). unfold_M.
  cbn [_base _size _milk _syrups _sugar _iced].
  destruct (Obj._base b) as [bs|]; [|done].
  destruct (Obj._size b) as [sz|]; [|done].
  by rewrite obj_bind_eq, (load_tuple_eq _ _ _ Hr).
Qed.

(** [build] on the store does what [build] on the values does, and the
    order it makes refers to the builder's tuple. *)
Lemma obj_build_eq (h : list Obj.object) self b items :
  h !! self = Some (Obj.Builder b) → h !! Obj._syrups b = Some (Obj.Tuple items) →
  Obj.build self h =
  match fst (build (mkBuilder (Obj._base b) (Obj._size b) (Obj._milk b) items
                      (Obj._sugar b) (Obj._iced b))) with
  | Return A =>
      (Obj.Return (length h),
       h ++ [Obj.Order (Obj.mkOrder (base A) (size A) (milk A) (Obj._syrups b)
                          (sugar A) (iced A) (price A) (description A))])
  | Raise e => (Obj.Raise (Obj.Exn e), h)
  end.
Proof.
  intros Hs Hr. rewrite build_cases.
  cbn [_base _size _milk _syrups _sugar _iced fst].
  unfold Obj.build. rewrite obj_bind_eq, (load_builder_eq _ _ _ Hs).
  destruct (Obj._base b) as [bs|] eqn:Hbs; [|done].
  destruct (Obj._size b) as [sz|] eqn:Hsz; [|done].
  rewrite obj_bind_eq, (load_tuple_eq _ _ _ Hr).
  rewrite obj_bind_eq. unfold Obj.when at 1. unfold MAX_SYRUPS, MAX_SUGAR.
  destruct (4 <? length items)%nat; [done|]. cbn [Obj.ret].
  rewrite obj_bind_eq. unfold Obj.when at 1.
  destruct (negb _); [done|]. cbn [Obj.ret].
  rewrite obj_bind_eq, (obj_calculate_price_eq _ _ _ _ Hs Hr).
  unfold _calculate_price. unfold_M.
  cbn [_base _size _milk _syrups _sugar _iced]. rewrite Hbs, Hsz.
  destruct (BASE_PRICES !! bs) as [bp|]; [|done].
  destruct (SIZE_MULTIPLIERS !! sz) as [sm|]; [|done].
  destruct (MILK_PRICES !! Obj._milk b) as [mp|]; [|done].
  cbn [fst].
  rewrite obj_bind_eq, (obj_build_description_eq _ _ _ _ Hs Hr).
  rewrite (build_description_closed_form _ bs sz) by done.
  cbn [fst _milk _syrups _sugar _iced].
  rewrite obj_bind_eq, (load_builder_eq _ _ _ Hs).
  unfold Obj.alloc, price_of. cbn. by destruct (Obj._iced b).
Qed.

(** *** Every call on the store against the call on the values *)

Lemma view_builder_assign (h : list Obj.object) self b items b' :
  h !! self = Some (Obj.Builder b) → h !! Obj._syrups b = Some (Obj.Tuple items) →
  Obj._syrups b' = Obj._syrups b →
  view_builder (<[self := Obj.Builder b']> h) self
  = Some (mkBuilder (Obj._base b') (Obj._size b') (Obj._milk b') items
            (Obj._sugar b') (Obj._iced b')).
Proof.
  intros Hs Hr Heq. unfold view_builder, Obj.loc in *.
  rewrite list_lookup_insert_eq by (by eapply lookup_lt_Some).
  rewrite Heq. rewrite list_lookup_insert_ne by congruence. by rewrite Hr.
Qed.

Lemma view_builder_rebind (h : list Obj.object) self b items' b' :
  h !! self = Some (Obj.Builder b) → Obj._syrups b' = length h →
  view_builder (<[self := Obj.Builder b']> (h ++ [Obj.Tuple items'])) self
  = Some (mkBuilder (Obj._base b') (Obj._size b') (Obj._milk b') items'
            (Obj._sugar b') (Obj._iced b')).
Proof.
  intros Hs Heq. unfold view_builder, Obj.loc in *.
  pose proof (lookup_lt_Some _ _ _ Hs) as Hlt.
  rewrite list_lookup_insert_eq by (rewrite length_app; lia).
  rewrite Heq. rewrite list_lookup_insert_ne by lia.
  by rewrite list_lookup_middle.
Qed.

(** A call on the builder of a store has the outcome, and leaves the
    builder, that the call has on the builder's values. *)
Lemma perform_simulates (h : list Obj.object) self v c :
  view_builder h self = Some v →
  view_outcome (snd (Obj.perform self c h)) (fst (Obj.perform self c h))
  = Some (fst (perform c v)) ∧
  view_builder (snd (Obj.perform self c h)) self = Some (snd (perform c v)).
Proof.
  intros (b & items & Hs & Hr & ->)%view_builder_inv.
  pose proof (lookup_lt_Some _ _ _ Hs) as Hlt.
  assert (Hv : view_builder h self
               = Some (mkBuilder (Obj._base b) (Obj._size b) (Obj._milk b) items
                         (Obj._sugar b) (Obj._iced b)))
    by (unfold view_builder; by rewrite Hs, Hr).
  rewrite perform_effect.
  destruct c as [x|x|x|x|x|x| |]; unfold Obj.perform, perform;
    rewrite obj_bind_eq; unfold mbind at 1, M_bind at 1, bind at 1;
    cbn [effect _base _size _milk _syrups _sugar _iced].
  - rewrite set_base_cases. unfold Obj.set_base. rewrite obj_bind_eq.
    unfold Obj.when. rewrite bool_decide_not.
    destruct (bool_decide (x ∈ VALID_BASES)); cbn [negb];
      [|unfold Obj.raise; cbn; by split].
    unfold Obj.ret. unfold Obj.set__base. rewrite (setattr_eq _ _ _ _ _ Hs).
    cbn. split; [done|]. by rewrite (view_builder_assign _ _ _ _ _ Hs Hr).
  - rewrite set_size_cases. unfold Obj.set_size. rewrite obj_bind_eq.
    unfold Obj.when. rewrite bool_decide_not.
    destruct (bool_decide (x ∈ VALID_SIZES)); cbn [negb];
      [|unfold Obj.raise; cbn; by split].
    unfold Obj.ret. unfold Obj.set__size. rewrite (setattr_eq _ _ _ _ _ Hs).
    cbn. split; [done|]. by rewrite (view_builder_assign _ _ _ _ _ Hs Hr).
  - rewrite set_milk_cases. unfold Obj.set_milk. rewrite obj_bind_eq.
    unfold Obj.when. rewrite bool_decide_not.
    destruct (bool_decide (x ∈ VALID_MILKS)); cbn [negb];
      [|unfold Obj.raise; cbn; by split].
    unfold Obj.ret. unfold Obj.set__milk. rewrite (setattr_eq _ _ _ _ _ Hs).
    cbn. split; [done|]. by rewrite (view_builder_assign _ _ _ _ _ Hs Hr).
  - unfold Obj.add_syrup.
    rewrite obj_bind_eq, (load_builder_eq _ _ _ Hs).
    rewrite obj_bind_eq, (load_tuple_eq _ _ _ Hr).
    rewrite obj_bind_eq. unfold Obj.when. unfold MAX_SYRUPS.
    destruct (Nat.leb_spec 4 (length items)) as [Hfull|Hroom].
    { rewrite add_syrup_full by (cbn; lia).
      rewrite (bool_decide_eq_false_2 (length items < 4)%nat) by lia.
      unfold Obj.raise; cbn; by split. }
    rewrite (bool_decide_eq_true_2 (length items < 4)%nat) by lia.
    unfold Obj.ret. destruct (decide (x ∈ items)) as [Hin|Hnin].
    + rewrite add_syrup_present by (cbn; (done || lia)).
      rewrite (bool_decide_eq_true_2 (x ∈ items)) by done.
      rewrite bool_decide_eq_false_2 by (by intros Hn).
      cbn. by split.
    + rewrite add_syrup_new by (cbn; (done || lia)).
      rewrite (bool_decide_eq_false_2 (x ∈ items)) by done.
      rewrite bool_decide_eq_true_2 by done.
      rewrite obj_bind_eq. unfold Obj.alloc, Obj.set__syrups.
      rewrite (setattr_eq _ _ _ _ b) by (by apply lookup_app_l_Some).
      cbn. split; [done|]. by rewrite (view_builder_rebind _ _ _ _ _ Hs).
  - rewrite set_sugar_cases. unfold Obj.set_sugar. rewrite obj_bind_eq.
    unfold Obj.when, MAX_SUGAR.
    destruct (negb ((0 <=? x)%Z && (x <=? 5)%Z)) eqn:Hneg.
    + rewrite bool_decide_eq_false_2;
        [unfold Obj.raise; cbn; by split|].
      apply negb_true_iff, andb_false_iff in Hneg as [?%Z.leb_gt|?%Z.leb_gt]; lia.
    + rewrite bool_decide_eq_true_2
        by (apply negb_false_iff, andb_true_iff in Hneg as [?%Z.leb_le ?%Z.leb_le];
            lia).
      unfold Obj.ret. unfold Obj.set__sugar. rewrite (setattr_eq _ _ _ _ _ Hs).
      cbn. split; [done|]. by rewrite (view_builder_assign _ _ _ _ _ Hs Hr).
  - unfold Obj.set_iced, Obj.set__iced. rewrite (setattr_eq _ _ _ _ _ Hs).
    cbn. split; [done|]. by rewrite (view_builder_assign _ _ _ _ _ Hs Hr).
  - rewrite clear_extras_cases. unfold Obj.clear_extras.
    unfold Obj.set__milk, Obj.set__syrups, Obj.set__sugar, Obj.set__iced.
    rewrite obj_bind_eq, (setattr_eq _ _ _ _ _ Hs).
    rewrite obj_bind_eq. unfold Obj.alloc.
    rewrite obj_bind_eq.
    erewrite setattr_eq
      by (apply lookup_app_l_Some, list_lookup_insert_eq; lia).
    rewrite obj_bind_eq.
    erewrite setattr_eq
      by (apply list_lookup_insert_eq; rewrite length_app, length_insert; lia).
    erewrite setattr_eq
      by (apply list_lookup_insert_eq;
          rewrite length_insert, length_app, length_insert; lia).
    rewrite !list_insert_insert_eq. cbn. split; [done|].
    erewrite view_builder_rebind; [done| |].
    + apply list_lookup_insert_eq. lia.
    + cbn. by rewrite length_insert.
  - rewrite (obj_build_eq _ _ _ _ Hs Hr).
    pose proof (build_keeps_builder
                  (mkBuilder (Obj._base b) (Obj._size b) (Obj._milk b) items
                     (Obj._sugar b) (Obj._iced b))) as Hkeep.
    destruct (build _) as [[A|e] v'] eqn:HA; cbn in Hkeep; subst v'; cbn.
    + pose proof HA as
        (bs & sz & bp & sm & mp & _ & _ & _ & _ & _ & _ & _ & _ & ->)
        %build_returns_inv.
      unfold view_order, view_builder, Obj.loc in *.
      rewrite list_lookup_middle by done. cbn.
      rewrite (lookup_app_l_Some _ _ _ _ Hr), (lookup_app_l_Some _ _ _ _ Hs).
      cbn. by rewrite (lookup_app_l_Some _ _ _ _ Hr).
    + done.
Qed.

(** [CoffeeOrderBuilder()] on the store makes the new builder of the
    values. *)
Lemma new_builder_simulates (h : list Obj.object) :
  ∃ self h',
    Obj.new_builder h = (Obj.Return self, h') ∧ self = length h ∧
    view_builder h' self = Some new_builder ∧ keeps h h'.
Proof.
  exists (length h). eexists. split; [|split; [done|]].
  - unfold Obj.new_builder, Obj.__init__, Obj.clear_extras.
    unfold Obj.set__milk, Obj.set__syrups, Obj.set__sugar, Obj.set__iced,
      Obj.set__base, Obj.set__size.
    rewrite obj_bind_eq. unfold Obj.alloc at 1.
    rewrite obj_bind_eq, obj_bind_eq, obj_bind_eq.
    erewrite setattr_eq by (by apply list_lookup_middle).
    rewrite obj_bind_eq. unfold Obj.alloc at 1.
    rewrite obj_bind_eq.
    erewrite setattr_eq
      by (apply lookup_app_l_Some, list_lookup_insert_eq; rewrite length_app;
          cbn; lia).
    rewrite obj_bind_eq.
    erewrite setattr_eq
      by (apply list_lookup_insert_eq;
          rewrite length_app, length_insert, length_app; cbn; lia).
    erewrite setattr_eq
      by (apply list_lookup_insert_eq;
          rewrite length_insert, length_app, length_insert, length_app; cbn; lia).
    rewrite obj_bind_eq.
    erewrite setattr_eq
      by (apply list_lookup_insert_eq;
          rewrite !length_insert, length_app, length_insert, length_app; cbn; lia).
    erewrite setattr_eq
      by (apply list_lookup_insert_eq;
          rewrite !length_insert, length_app, length_insert, length_app; cbn; lia).
    reflexivity.
  - split.
    + rewrite !list_insert_insert_eq. rewrite new_builder_fields.
      erewrite view_builder_rebind; [done| |].
      * apply list_lookup_insert_eq. rewrite length_app. cbn. lia.
      * cbn. by rewrite length_insert, length_app, Nat.add_1_r.
    + rewrite !list_insert_insert_eq.
      eapply keeps_trans; [apply (keeps_alloc h (Obj.Builder Obj.blank))|].
      eapply keeps_trans.
      * eapply keeps_insert_builder. by apply list_lookup_middle.
      * eapply keeps_trans; [apply keeps_alloc|].
        eapply keeps_insert_builder.
        apply lookup_app_l_Some, list_lookup_insert_eq. rewrite length_app. cbn. lia.
Qed.

(** An assignment to an attribute of an order is refused, whatever the
    attribute and the value, and changes nothing. *)
Lemma assign_order_refused (h : list Obj.object) (a : Obj.loc) o name store :
  h !! a = Some (Obj.Order o) →
  Obj.exec (Obj.Assign a name store) h
  = (Obj.Raise (Obj.FrozenInstanceError
                  ("cannot assign to field '" +:+ name +:+ "'")), h).
Proof.
  intros Ha. unfold Obj.exec. rewrite obj_bind_eq. unfold Obj.setattr, Obj.loc in *.
  by rewrite Ha.
Qed.

(** The syrups of an order already built are those of the tuple the builder
    had then: [add_syrup] afterwards binds the builder to a new tuple and
    the order still refers to the old one. *)
Example order_keeps_its_tuple :
  let h := Obj.run [Obj.New; Obj.Call 0 (Set_base "latte");
                    Obj.Call 0 (Set_size "small");
                    Obj.Call 0 (Add_syrup "vanilla"); Obj.Call 0 Build;
                    Obj.Call 0 (Add_syrup "mint")] [] in
  syrups <$> view_order h 3 = Some ["vanilla"] ∧
  _syrups <$> view_builder h 0 = Some ["vanilla"; "mint"].
Proof. vm_compute. by split. Qed.

(** A [build] that returns has found a builder, and the reference it
    returns shows the order that [build] computes from the builder's
    values. *)
Lemma obj_build_returns (h : list Obj.object) self a h1 :
  Obj.build self h = (Obj.Return a, h1) →
  ∃ v A,
    view_builder h self = Some v ∧ build v = (Return A, v) ∧
    view_order h1 a = Some A.
Proof.
  intros Hbuild.
  destruct (h !! self) as [[items0|order0|b]|] eqn:Hs;
    try (unfold Obj.build in Hbuild;
         rewrite obj_bind_eq in Hbuild; unfold Obj.load_builder in Hbuild;
         by rewrite Hs in Hbuild).
  destruct (h !! Obj._syrups b) as [[items|order|b']|] eqn:Hr;
    try (unfold Obj.build in Hbuild;
         rewrite obj_bind_eq, (load_builder_eq _ _ _ Hs) in Hbuild;
         destruct (Obj._base b); [|done]; destruct (Obj._size b); [|done];
         rewrite obj_bind_eq in Hbuild; unfold Obj.load_tuple in Hbuild;
         by rewrite Hr in Hbuild).
  rewrite (obj_build_eq _ _ _ _ Hs Hr) in Hbuild.
  exists (mkBuilder (Obj._base b) (Obj._size b) (Obj._milk b) items
            (Obj._sugar b) (Obj._iced b)).
  destruct (build _) as [[A|e] v'] eqn:HA; cbn [fst] in Hbuild; [|done].
  injection Hbuild as <- <-. exists A.
  pose proof HA as (bs & sz & bp & sm & mp & _ & _ & _ & _ & _ & _ & _ & -> & ->)
    %build_returns_inv.
  split; [|split; [done|]].
  - unfold view_builder. by rewrite Hs, Hr.
  - unfold view_order. rewrite list_lookup_middle by done.
    cbn [Obj.syrups]. by rewrite (lookup_app_l_Some _ _ _ _ Hr).
Qed.

(** The store does not protect a tuple by itself: were the tuple an order
    refers to updated in place, the order would show it at once.  That no
    method does so is [frame_perform]. *)
Lemma update_in_place_shows (h : list Obj.object) (a : Obj.loc) o items name :
  h !! a = Some (Obj.Order o) → h !! Obj.syrups o = Some (Obj.Tuple items) →
  ∃ A A',
    view_order h a = Some A ∧
    view_order (<[Obj.syrups o := Obj.Tuple (items ++ [name])]> h) a = Some A' ∧
    syrups A' = syrups A ++ [name] ∧ A' ≠ A.
Proof.
  intros Ha Hr. unfold view_order, Obj.loc in *. rewrite Ha, Hr.
  assert (a ≠ Obj.syrups o) as Hne by (intros Heq; rewrite Heq in Ha; congruence).
  rewrite list_lookup_insert_ne, Ha by done.
  rewrite list_lookup_insert_eq by (by eapply lookup_lt_Some).
  do 2 eexists. split; [done|]. split; [done|]. split; [done|].
  intros [= Heq]. apply (f_equal length) in Heq. rewrite length_app in Heq.
  cbn in Heq. lia.
Qed.

(** *** C9 *)

(** C9.  With every object in a store: when [build] returns, the reference
    it returns shows an order [A], the one [build] computes from the values
    of the builder, and that reference shows the same [A], field for field
    and syrup for syrup, after any sequence of later actions: calls of
    [set_base], [set_size], [set_milk], [add_syrup], [set_sugar],
    [set_iced], [clear_extras] and [build] on this or any other builder,
    new builders, and attempts to assign to an attribute of the order. *)
Theorem orders_immutable (h : list Obj.object) (self a : Obj.loc)
    (h1 : list Obj.object) (acts : list Obj.action) :
  Obj.build self h = (Obj.Return a, h1) →
  ∃ v A,
    view_builder h self = Some v ∧ build v = (Return A, v) ∧
    view_order h1 a = Some A ∧
    view_order (Obj.run acts h1) a = Some A.
Proof.
  intros (v & A & Hv & HA & Ha)%obj_build_returns.
  exists v, A. repeat split; try done.
  eapply view_order_keeps; [apply keeps_run|done].
Qed.

Lemma orders_immutable_witness :
  view_order
    (Obj.run
       [Obj.Call 0 (Add_syrup "mint"); Obj.Call 0 Clear_extras;
        Obj.Call 0 (Set_base "americano"); Obj.Call 0 (Set_size "small");
        Obj.Call 0 (Set_sugar 1); Obj.Call 0 Build;
        Obj.Assign 4 "base" (λ b, b); Obj.New]
       (snd (Obj.build 0
               (Obj.run
                  [Obj.New; Obj.Call 0 (Set_base "cappuccino");
                   Obj.Call 0 (Set_size "large"); Obj.Call 0 (Set_milk "oat");
                   Obj.Call 0 (Add_syrup "vanilla");
                   Obj.Call 0 (Add_syrup "caramel"); Obj.Call 0 (Set_sugar 2);
                   Obj.Call 0 (Set_iced true)] []))))
    4
  = Some (mkOrder "cappuccino" "large" "oat" ["vanilla"; "caramel"] 2 true
            588.2%float
            "large cappuccino with oat milk +vanilla+caramel (iced) 2 tsp sugar").
Proof.
  destruct (orders_immutable
              (Obj.run
                 [Obj.New; Obj.Call 0 (Set_base "cappuccino");
                  Obj.Call 0 (Set_size "large"); Obj.Call 0 (Set_milk "oat");
                  Obj.Call 0 (Add_syrup "vanilla");
                  Obj.Call 0 (Add_syrup "caramel"); Obj.Call 0 (Set_sugar 2);
                  Obj.Call 0 (Set_iced true)] [])
              0 4
              (snd (Obj.build 0
                      (Obj.run
                         [Obj.New; Obj.Call 0 (Set_base "cappuccino");
                          Obj.Call 0 (Set_size "large"); Obj.Call 0 (Set_milk "oat");
                          Obj.Call 0 (Add_syrup "vanilla");
                          Obj.Call 0 (Add_syrup "caramel"); Obj.Call 0 (Set_sugar 2);
                          Obj.Call 0 (Set_iced true)] [])))
              [Obj.Call 0 (Add_syrup "mint"); Obj.Call 0 Clear_extras;
               Obj.Call 0 (Set_base "americano"); Obj.Call 0 (Set_size "small");
               Obj.Call 0 (Set_sugar 1); Obj.Call 0 Build;
               Obj.Assign 4 "base" (λ b, b); Obj.New])
    as (v & A & _ & _ & Ha & Hrun).
  - vm_compute. reflexivity.
  - vm_compute in Ha. injection Ha as <-. exact Hrun.
Defined.
